(** * The exam-question clarity pipeline ([exam_pipeline.py])

    A shallow embedding of [ExamPipeline] and the properties of its
    remediation loop.

    Conventions of the model.
    - Python values that travel through the pipeline (the result of
      [json.loads], the fields of a question record) are values of [pyval].
    - A [str] is a [string]; its characters are read as the code points
      0..255, on which [str.strip], [str.lower], [\s] and [\d] are modelled
      exactly.
    - A Python [float] is a binary64 number, [spec_float] with precision 53
      and maximal exponent 1024.
    - The chat service, the two sentence encoders, [json.loads], the PDF
      reader and [repr] are parameters of the development.  Everything the
      pipeline does to the outside (chat requests with their answers, model
      loading, encoder calls, lines written to standard output) is appended
      to a log kept in the [World], next to the two module-level encoder
      singletons.
    - An exception that the code does not catch is an outcome [Raise]. *)

From Stdlib Require Import ZArith List String Ascii Bool Lia.
From Stdlib Require Import DecimalString DecimalNat.
From Stdlib Require Import SpecFloat.
Import ListNotations.

Local Open Scope string_scope.
Local Open Scope Z_scope.

(** ** Characters and strings *)

Module Str.

Definition nl : string := String (ascii_of_nat 10) "".
Definition dq : string := String (ascii_of_nat 34) "".

Definition code (c : ascii) : Z := Z.of_nat (nat_of_ascii c).

(** [str.isspace] on one character, which is also the class [\s]. *)
Definition is_space (c : ascii) : bool :=
  let n := code c in
  ((9 <=? n) && (n <=? 13)) || ((28 <=? n) && (n <=? 32))
  || (n =? 133) || (n =? 160).

(** The class [\d]. *)
Definition is_digit (c : ascii) : bool :=
  let n := code c in (48 <=? n) && (n <=? 57).

Definition is_newline (c : ascii) : bool := code c =? 10.

(** The class [.] without [re.S]. *)
Definition not_newline (c : ascii) : bool := negb (is_newline c).

(** The class [.] with [re.S]. *)
Definition any_char (_ : ascii) : bool := true.

Definition is_upper (c : ascii) : bool :=
  let n := code c in
  ((65 <=? n) && (n <=? 90)) || ((192 <=? n) && (n <=? 214))
  || ((216 <=? n) && (n <=? 222)).

Definition lower_char (c : ascii) : ascii :=
  if is_upper c then ascii_of_nat (nat_of_ascii c + 32) else c.

(** [s.lower()] *)
Fixpoint lower (s : string) : string :=
  match s with
  | EmptyString => EmptyString
  | String c s' => String (lower_char c) (lower s')
  end.

Fixpoint lstrip (s : string) : string :=
  match s with
  | EmptyString => EmptyString
  | String c s' => if is_space c then lstrip s' else s
  end.

Fixpoint rstrip (s : string) : string :=
  match s with
  | EmptyString => EmptyString
  | String c s' =>
      match rstrip s' with
      | EmptyString => if is_space c then EmptyString else String c EmptyString
      | r => String c r
      end
  end.

(** [s.strip()] *)
Definition strip (s : string) : string := rstrip (lstrip s).

(** [s.startswith(p)], returning what follows the prefix. *)
Fixpoint drop_prefix (p s : string) : option string :=
  match p with
  | EmptyString => Some s
  | String a p' =>
      match s with
      | EmptyString => None
      | String b s' => if Ascii.eqb a b then drop_prefix p' s' else None
      end
  end.

(** Every character of [s] is in the class [p]. *)
Fixpoint all_chars (p : ascii -> bool) (s : string) : bool :=
  match s with
  | EmptyString => true
  | String c s' => p c && all_chars p s'
  end.

(** [int(s)] for a non-empty run of decimal digits. *)
Definition digit_value (c : ascii) : Z := code c - 48.

Fixpoint int_of_digits_from (acc : Z) (s : string) : Z :=
  match s with
  | EmptyString => acc
  | String c s' => int_of_digits_from (10 * acc + digit_value c) s'
  end.

Definition int_of_digits (s : string) : Z := int_of_digits_from 0 s.

End Str.

(** ** A backtracking matcher for the patterns of the pipeline

    A pattern is matched in continuation-passing style: a matcher receives
    the rest of the text and answers with the text of the capture group, or
    [None] when the match fails there, in which case the caller backtracks.
    [take_*] matchers are inside the capture group, [skip_*] matchers are
    before it. *)

Module Re.

Definition cont := string -> option string.

(** End of the pattern: the group is closed. *)
Definition stop : cont := fun _ => Some "".

Definition skip_lit (l : string) (k : cont) : cont := fun s =>
  match Str.drop_prefix l s with
  | Some rest => k rest
  | None => None
  end.

Definition take_lit (l : string) (k : cont) : cont := fun s =>
  match Str.drop_prefix l s with
  | Some rest => option_map (String.append l) (k rest)
  | None => None
  end.

(** Greedy [p*]: as many characters as possible, giving them back one by
    one while the continuation fails. *)
Fixpoint skip_star (p : ascii -> bool) (k : cont) (s : string) : option string :=
  match s with
  | EmptyString => k s
  | String c s' =>
      if p c then
        match skip_star p k s' with
        | Some m => Some m
        | None => k s
        end
      else k s
  end.

Fixpoint take_star (p : ascii -> bool) (k : cont) (s : string) : option string :=
  match s with
  | EmptyString => k s
  | String c s' =>
      if p c then
        match take_star p k s' with
        | Some m => Some (String c m)
        | None => k s
        end
      else k s
  end.

(** Greedy [p+]. *)
Definition take_plus (p : ascii -> bool) (k : cont) : cont := fun s =>
  match s with
  | EmptyString => None
  | String c s' => if p c then option_map (String c) (take_star p k s') else None
  end.

Definition alt (m1 m2 : cont) : cont := fun s =>
  match m1 s with
  | Some r => Some r
  | None => m2 s
  end.

(** [re.search]: the first start position, from the left, where the
    pattern matches; the end of the text is a start position too. *)
Fixpoint search (m : cont) (s : string) : option string :=
  match m s with
  | Some r => Some r
  | None =>
      match s with
      | EmptyString => None
      | String _ s' => search m s'
      end
  end.

End Re.

(** ** Python values *)

(** Binary64 arithmetic, the arithmetic of a Python [float]. *)
Module F64.

Definition prec : Z := 53.
Definition emax : Z := 1024.

Definition add : spec_float -> spec_float -> spec_float := SFadd prec emax.
Definition mul : spec_float -> spec_float -> spec_float := SFmul prec emax.
Definition ltb : spec_float -> spec_float -> bool := SFltb.


(** The literals of the source, each the binary64 number nearest to it. *)
Definition lit_0_1 : spec_float := S754_finite false 7205759403792794 (-56).
Definition lit_0_2 : spec_float := S754_finite false 7205759403792794 (-55).
Definition lit_0_75 : spec_float := S754_finite false 6755399441055744 (-53).
Definition lit_0_8 : spec_float := S754_finite false 7205759403792794 (-53).

(** The conversion of an [int] operand of a mixed product: rounded to
    nearest, ties to even, and [None] where Python raises
    [OverflowError]. *)
Definition of_int (n : Z) : option spec_float :=
  match binary_normalize prec emax n 0 false with
  | S754_infinity _ => None
  | x => Some x
  end.

End F64.

#[local] Set Warnings "-register-all".

(** What [json.loads] can build, and what the pipeline passes around. *)
Inductive pyval : Type :=
| PNone
| PBool (b : bool)
| PInt (n : Z)
| PFloat (x : spec_float)
| PStr (s : string)
| PList (l : list pyval)
| PDict (d : list (string * pyval)).

(** A [dict] is the list of its items in insertion order; its keys are
    distinct. *)
Definition pydict : Type := list (string * pyval).

(** [d.get(key, default)] *)
Fixpoint dict_get (key : string) (d : pydict) (default : pyval) : pyval :=
  match d with
  | [] => default
  | (k, v) :: d' => if String.eqb k key then v else dict_get key d' default
  end.

(** [key in d] *)
Definition dict_mem (key : string) (d : pydict) : bool :=
  existsb (fun kv => String.eqb (fst kv) key) d.

(** [d.values()] *)
Definition dict_values (d : pydict) : list pyval := map snd d.

(** [isinstance(v, str)] and [isinstance(v, list)] *)
Definition is_str (v : pyval) : bool :=
  match v with PStr _ => true | _ => false end.


(** The truth value of a value, as [not v] tests it. *)
Definition truthy (v : pyval) : bool :=
  match v with
  | PNone => false
  | PBool b => b
  | PInt n => negb (n =? 0)
  | PFloat (S754_zero _) => false
  | PFloat _ => true
  | PStr s => negb (String.eqb s "")
  | PList l => match l with [] => false | _ => true end
  | PDict d => match d with [] => false | _ => true end
  end.

(** ** The world: module globals and the log of effects *)

(** The arguments of [client_groq.chat.completions.create]: the model, the
    content of the single user message, and the temperature. *)
Record request : Type := mkRequest {
  model : string;
  content : string;
  temperature : pyval
}.

(** The lines the pipeline prints. *)
Inductive line : Type :=
| OutErrorOpeningPdf
| OutExtracted (characters : nat)
| OutPdfTooLarge
| OutFound (questions : nat)
| OutAttemptFailed (attempt_number : Z) (question_id : pyval).

Inductive event : Type :=
| EvChat (r : request) (response : string)
| EvLoad (model_name : string)
| EvCosSim (original candidate : string)
| EvPredict (original candidate : string)
| EvPrint (l : line).

Record World : Type := mkWorld {
  bi_encoder : bool;      (* [false] while the global is [None] *)
  cross_encoder : bool;   (* [false] while the global is [None] *)
  log : list event
}.

Inductive exn : Type := AttributeError | OverflowError.

Inductive outcome (A : Type) : Type :=
| Ok (a : A) (w : World)
| Raise (e : exn) (w : World).

Arguments Ok {A} a w.
Arguments Raise {A} e w.

Definition M (A : Type) : Type := World -> outcome A.

Definition ret {A} (a : A) : M A := fun w => Ok a w.

Definition bind {A B} (m : M A) (k : A -> M B) : M B := fun w =>
  match m w with
  | Ok a w' => k a w'
  | Raise e w' => Raise e w'
  end.

Definition raise {A} (e : exn) : M A := fun w => Raise e w.

Definition emit (e : event) : M unit := fun w =>
  Ok tt (mkWorld (bi_encoder w) (cross_encoder w) (log w ++ [e])).

Definition print (l : line) : M unit := emit (EvPrint l).

Declare Scope pipeline_scope.
Delimit Scope pipeline_scope with pipeline.
Notation "x <- m ;; k" := (bind m (fun x => k))
  (at level 61, m at next level, right associativity) : pipeline_scope.
Notation "m ;;; k" := (bind m (fun _ => k))
  (at level 61, right associativity) : pipeline_scope.
Local Open Scope pipeline_scope.

Definition world_of {A} (o : outcome A) : World :=
  match o with Ok _ w => w | Raise _ w => w end.

(** The chat requests among some events, in order. *)
Fixpoint chats (evs : list event) : list request :=
  match evs with
  | [] => []
  | EvChat r _ :: evs' => r :: chats evs'
  | _ :: evs' => chats evs'
  end.

(** The attempt numbers of the rejections reported among some events. *)
Fixpoint rejections (evs : list event) : list Z :=
  match evs with
  | [] => []
  | EvPrint (OutAttemptFailed k _) :: evs' => k :: rejections evs'
  | _ :: evs' => rejections evs'
  end.

(** The calls of the bi-encoder and of the cross-encoder among some events. *)
Fixpoint cos_sim_calls (evs : list event) : list (string * string) :=
  match evs with
  | [] => []
  | EvCosSim a b :: evs' => (a, b) :: cos_sim_calls evs'
  | _ :: evs' => cos_sim_calls evs'
  end.

Fixpoint predict_calls (evs : list event) : list (string * string) :=
  match evs with
  | [] => []
  | EvPredict a b :: evs' => (a, b) :: predict_calls evs'
  | _ :: evs' => predict_calls evs'
  end.

(** ** Models and constants *)

Definition EXTRACT_MODEL : string := "llama-3.1-8b-instant".
Definition SCORE_MODEL : string := "llama-3.3-70b-versatile".
Definition REPHRASE_MODEL : string := "llama-3.1-8b-instant".

Definition BI_ENCODER_NAME : string := "sentence-transformers/all-MiniLM-L6-v2".
Definition CROSS_ENCODER_NAME : string := "cross-encoder/ms-marco-MiniLM-L-6-v2".

Definition MAX_PDF_SIZE : Z := 10 * 1024 * 1024.
Definition MAX_ATTEMPTS : nat := 6.

(** The candidates among some events: the trimmed answers to the requests
    sent to the rephrasing model.  (The extraction model has the same name;
    it is not called inside the loop over the questions, where the
    candidates are counted.) *)
Fixpoint candidates (evs : list event) : list string :=
  match evs with
  | [] => []
  | EvChat r response :: evs' =>
      if String.eqb (model r) REPHRASE_MODEL
      then Str.strip response :: candidates evs'
      else candidates evs'
  | _ :: evs' => candidates evs'
  end.

(** [range(n)] *)
Definition range (n : nat) : list Z := map Z.of_nat (seq 0 n).

(** One record of the list [run] returns. *)
Record Result : Type := mkResult {
  ID : pyval;
  Original_Question : pyval;
  Score : Z;
  Justification : string;
  Final_Version : pyval;
  Status : string
}.

(** One page of an opened PDF, as [extract_text] and [_ocr_page] see it. *)
Record page : Type := mkPage {
  get_text : string;        (* [page.get_text()] *)
  pix_width : Z;            (* of [page.get_pixmap(dpi=200)] *)
  pix_height : Z;
  image_to_string : string  (* what tesseract reads on the pixmap *)
}.

(** ** The pipeline *)

Section Pipeline.

(** The answer of the chat service to a request, which may depend on
    everything that happened before. *)
Variable chat : list event -> request -> string.

(** [float(util.cos_sim(encode(a), encode(b)))] for the bi-encoder and
    [float(predict([[a, b]])[0])] for the cross-encoder. *)
Variable cos_sim : string -> string -> spec_float.
Variable cross_predict : string -> string -> spec_float.

(** [json.loads], [None] standing for [JSONDecodeError]. *)
Variable json_loads : string -> option pyval.

(** The pages of the PDF held in some bytes; [None] when opening or
    reading it raises. *)
Variable fitz_open : list Byte.byte -> option (list page).

(** [str(v)] for a value that is not a [str]. *)
Variable repr : pyval -> string.

(** What an f-string puts in place of [{v}]. *)
Definition format (v : pyval) : string :=
  match v with
  | PStr s => s
  | _ => repr v
  end.

(** [client_groq.chat.completions.create(...)] followed by
    [.choices[0].message.content]. *)
Definition chat_create (r : request) : M string := fun w =>
  let response := chat (log w) r in
  Ok response
     (mkWorld (bi_encoder w) (cross_encoder w) (log w ++ [EvChat r response])).

(** *** OCR helper and text extraction *)

Definition _ocr_page (p : page) : string :=
  if pix_width p * pix_height p >? 12000000 then ""
  else image_to_string p.

Fixpoint pages_text (pages : list page) (text : string) : string :=
  match pages with
  | [] => text
  | p :: pages' =>
      let page_text := Str.strip (get_text p) in
      let page_text :=
        if (String.length page_text <? 50)%nat then _ocr_page p else page_text in
      pages_text pages' (text ++ page_text ++ Str.nl)
  end.

Definition extract_text (file_bytes : list Byte.byte) : M string :=
  match fitz_open file_bytes with
  | None => print OutErrorOpeningPdf ;;; ret ""
  | Some pages =>
      let clean_text := Str.strip (pages_text pages "") in
      print (OutExtracted (String.length clean_text)) ;;;
      ret clean_text
  end.

(** *** Safe JSON parser *)

(** [re.sub(r"^```json|```$", "", text, flags=re.MULTILINE)]: [bol] tells
    whether the position is at the beginning of a line, [skip] counts the
    characters of a match still to be removed. *)
Definition fence_at_eol (s : string) : bool :=
  match Str.drop_prefix "```" s with
  | Some EmptyString => true
  | Some (String c _) => Str.is_newline c
  | None => false
  end.

Definition fence_at_bol (s : string) : bool :=
  match Str.drop_prefix "```json" s with
  | Some _ => true
  | None => false
  end.

Fixpoint sub_fences (bol : bool) (skip : nat) (s : string) : string :=
  match s with
  | EmptyString => EmptyString
  | String c s' =>
      match skip with
      | S n => sub_fences false n s'
      | O =>
          if bol && fence_at_bol s then sub_fences false 6 s'
          else if fence_at_eol s then sub_fences false 2 s'
          else String c (sub_fences (Str.is_newline c) 0 s')
      end
  end.

(** [(\{.*\}|\[.*\])] with [re.S] *)
Definition json_re : Re.cont :=
  Re.alt
    (Re.take_lit "{" (Re.take_star Str.any_char (Re.take_lit "}" Re.stop)))
    (Re.take_lit "[" (Re.take_star Str.any_char (Re.take_lit "]" Re.stop))).

Definition _safe_json_load (text : string) : option pyval :=
  let text := Str.strip text in
  let text := Str.strip (sub_fences true 0 text) in
  match Re.search json_re text with
  | None => None
  | Some group1 => json_loads group1
  end.

(** *** Question extraction *)

Definition extract_prompt (text : string) : string :=
  Str.nl
  ++ "Extract ALL exam questions from the text below." ++ Str.nl
  ++ "Return JSON in ONE of these forms:" ++ Str.nl
  ++ "1) [{" ++ Str.dq ++ "id" ++ Str.dq ++ ": 1, "
     ++ Str.dq ++ "question" ++ Str.dq ++ ": "
     ++ Str.dq ++ "..." ++ Str.dq ++ "}]" ++ Str.nl
  ++ "2) { " ++ Str.dq ++ "questions" ++ Str.dq ++ ": [{"
     ++ Str.dq ++ "id" ++ Str.dq ++ ": 1, "
     ++ Str.dq ++ "question" ++ Str.dq ++ ": "
     ++ Str.dq ++ "..." ++ Str.dq ++ "}] }" ++ Str.nl
  ++ Str.nl
  ++ "TEXT:" ++ Str.nl
  ++ text ++ Str.nl.

(** The first of the keys whose value in [raw] is a list. *)
Fixpoint first_list_under (keys : list string) (raw : pydict) : option (list pyval) :=
  match keys with
  | [] => None
  | key :: keys' =>
      if dict_mem key raw then
        match dict_get key raw PNone with
        | PList l => Some l
        | _ => first_list_under keys' raw
        end
      else first_list_under keys' raw
  end.

Definition get_questions (text : string) : M (list pyval) :=
  if String.eqb text "" then ret []
  else
    response <- chat_create (mkRequest EXTRACT_MODEL (extract_prompt text) (PInt 0)) ;;
    match _safe_json_load response with
    | None => ret []
    | Some (PList l) => ret l
    | Some (PDict raw) =>
        match first_list_under ["questions"; "exam_questions"] raw with
        | Some l => ret l
        | None =>
            if forallb is_str (dict_values raw) then
              ret (map (fun kv => PDict [("id", PStr (fst kv)); ("question", snd kv)]) raw)
            else ret []
        end
    | Some _ => ret []
    end.

(** *** Scoring *)

Definition score_prompt (question : pyval) : string :=
  "Rate this exam question for how likely it is to waste students' time due to confusing wording,"
    ++ Str.nl
  ++ "0 = perfectly clear, 100 = extremely confusing. DON'T CONSIDER DOUBLE NEGATIVES."
    ++ Str.nl
  ++ "Give it in this format:" ++ Str.nl
  ++ "1. Score:" ++ Str.nl
  ++ "2. Justification: (1 line)" ++ Str.nl
  ++ Str.nl
  ++ "Question: " ++ format question ++ Str.nl.

(** [Score:\s*(\d+)] *)
Definition score_re : Re.cont :=
  Re.skip_lit "Score:" (Re.skip_star Str.is_space (Re.take_plus Str.is_digit Re.stop)).

(** [Justification:\s*(.+)] *)
Definition justification_re : Re.cont :=
  Re.skip_lit "Justification:"
    (Re.skip_star Str.is_space (Re.take_plus Str.not_newline Re.stop)).

Definition degraded : Z * string := (0, "Could not parse score.").

(** The [try] block: a search that finds nothing returns [None], whose
    [.group] raises, and the handler returns the degraded assessment. *)
Definition parse_assessment (txt : string) : Z * string :=
  match Re.search score_re txt with
  | None => degraded
  | Some digits =>
      let score := Str.int_of_digits digits in
      match Re.search justification_re txt with
      | None => degraded
      | Some group1 => (score, Str.strip group1)
      end
  end.

Definition score_question (question : pyval) : M (Z * string) :=
  txt <- chat_create (mkRequest SCORE_MODEL (score_prompt question) (PFloat F64.lit_0_2)) ;;
  ret (parse_assessment txt).

(** *** Rephrasing *)

(** [0.2 + (attempt * 0.1)] *)
Definition dynamic_temp (attempt : Z) : option spec_float :=
  match F64.of_int attempt with
  | Some a => Some (F64.add F64.lit_0_2 (F64.mul a F64.lit_0_1))
  | None => None
  end.

Definition retry_instruction (attempt : Z) : string :=
  if attempt >? 0 then
    "Your previous attempt was rejected for not matching the original meaning. "
    ++ "Try a different structure while staying strictly faithful to the core intent."
  else "".

Definition rephrase_prompt (question : pyval) (justification : string)
    (attempt : Z) : string :=
  "Rephrase the question to be clearer (score below 20)." ++ Str.nl
  ++ retry_instruction attempt ++ Str.nl
  ++ "Original: " ++ format question ++ Str.nl
  ++ "Justification: " ++ justification ++ Str.nl
  ++ "Output ONLY the rephrased question." ++ Str.nl.

Definition rephrase (question : pyval) (score : Z) (justification : string)
    (attempt : Z) : M string :=
  match dynamic_temp attempt with
  | None => raise OverflowError
  | Some temp =>
      response <- chat_create
        (mkRequest REPHRASE_MODEL (rephrase_prompt question justification attempt)
           (PFloat temp)) ;;
      ret (Str.strip response)
  end.

(** *** Validation *)

Definition load_bi_encoder : M unit := fun w =>
  if bi_encoder w then Ok tt w
  else Ok tt (mkWorld true (cross_encoder w) (log w ++ [EvLoad BI_ENCODER_NAME])).

Definition load_cross_encoder : M unit := fun w =>
  if cross_encoder w then Ok tt w
  else Ok tt (mkWorld (bi_encoder w) true (log w ++ [EvLoad CROSS_ENCODER_NAME])).

(** The receiver of [.strip()]: only a [str] has the method. *)
Definition as_str (v : pyval) : M string :=
  match v with
  | PStr s => ret s
  | _ => raise AttributeError
  end.

Definition bi_score_of (original candidate : string) : M spec_float :=
  emit (EvCosSim original candidate) ;;; ret (cos_sim original candidate).

Definition cross_score_of (original candidate : string) : M spec_float :=
  emit (EvPredict original candidate) ;;; ret (cross_predict original candidate).

Definition validate (original candidate : pyval) : M bool :=
  load_bi_encoder ;;;
  load_cross_encoder ;;;
  o <- as_str original ;;
  c <- as_str candidate ;;
  if String.eqb (Str.lower (Str.strip o)) (Str.lower (Str.strip c)) then ret false
  else
    bi_score <- bi_score_of o c ;;
    if F64.ltb bi_score F64.lit_0_8 then ret false
    else
      cross_score <- cross_score_of o c ;;
      if F64.ltb cross_score F64.lit_0_75 then ret false
      else ret true.

(** *** Main run *)

(** The inner [for attempt in range(MAX_ATTEMPTS)] over the attempts that
    remain; it returns [final] and [status] as the loop leaves them. *)
Fixpoint attempt_loop (q : pydict) (original : pyval) (score : Z)
    (justification : string) (attempts : list Z) : M (pyval * string) :=
  match attempts with
  | [] => ret (original, "Original Kept")
  | attempt :: attempts' =>
      candidate <- rephrase original score justification attempt ;;
      ok <- validate original (PStr candidate) ;;
      if ok then ret (PStr candidate, "Rephrased")
      else
        print (OutAttemptFailed (attempt + 1) (dict_get "id" q PNone)) ;;;
        attempt_loop q original score justification attempts'
  end.

(** The body of [for q in questions]: [None] is [continue], [Some r] is
    the record appended to [results]. *)
Definition run_body (q : pyval) : M (option Result) :=
  match q with
  | PDict d =>
      let original := dict_get "question" d (PStr "") in
      if negb (truthy original) then ret None
      else
        sj <- score_question original ;;
        let '(score, justification) := sj in
        fs <- (if score >? 20 then
                 fs <- attempt_loop d original score justification (range MAX_ATTEMPTS) ;;
                 let '(final, status) := fs in
                 if String.eqb status "Original Kept"
                 then ret (final, "Manual Review Required")
                 else ret (final, status)
               else ret (original, "Original Kept")) ;;
        let '(final, status) := fs in
        ret (Some (mkResult (dict_get "id" d (PStr "?")) original score
                     justification final status))
  | _ => raise AttributeError
  end.

Fixpoint run_loop (questions : list pyval) (results : list Result) : M (list Result) :=
  match questions with
  | [] => ret results
  | q :: questions' =>
      r <- run_body q ;;
      match r with
      | None => run_loop questions' results
      | Some record => run_loop questions' (results ++ [record])
      end
  end.

Definition run (file_bytes : list Byte.byte) : M (list Result) :=
  if Z.of_nat (List.length file_bytes) >? MAX_PDF_SIZE then
    print OutPdfTooLarge ;;; ret []
  else
    text <- extract_text file_bytes ;;
    if String.eqb text "" then ret []
    else
      questions <- get_questions text ;;
      print (OutFound (List.length questions)) ;;;
      run_loop questions [].

End Pipeline.

(** ** Vocabulary of the statements *)

(** [d[key]] when the key is present. *)
Fixpoint dict_lookup (key : string) (d : pydict) : option pyval :=
  match d with
  | [] => None
  | (k, v) :: d' => if String.eqb k key then Some v else dict_lookup key d'
  end.

(** The text of a question record is missing or empty. *)
Definition text_missing_or_empty (d : pydict) : bool :=
  match dict_lookup "question" d with
  | None => true
  | Some (PStr s) => String.eqb s ""
  | Some _ => false
  end.

(** A question record as the data model has it: an object whose text, when
    it has one, is a string. *)
Definition question_record (q : pyval) : Prop :=
  exists d, q = PDict d /\
    (dict_lookup "question" d = None \/ exists s, dict_lookup "question" d = Some (PStr s)).

Definition keeps_text (q : pyval) : bool :=
  match q with
  | PDict d => negb (text_missing_or_empty d)
  | _ => false
  end.

(** The record [r] is the result of the question record [q]: it carries the
    text of [q] and its id, or [?] when [q] has none. *)
Definition result_of (q : pyval) (r : Result) : Prop :=
  exists d, q = PDict d /\
    dict_lookup "question" d = Some (Original_Question r) /\
    ID r = match dict_lookup "id" d with Some v => v | None => PStr "?" end.


(** The request [score_question] sends and the request [rephrase] sends at
    a temperature. *)
Definition score_request (repr : pyval -> string) (question : pyval) : request :=
  mkRequest SCORE_MODEL (score_prompt repr question) (PFloat F64.lit_0_2).

Definition rephrase_request (repr : pyval -> string) (question : pyval)
    (justification : string) (attempt : Z) (temp : spec_float) : request :=
  mkRequest REPHRASE_MODEL (rephrase_prompt repr question justification attempt)
    (PFloat temp).

Definition extract_request (text : string) : request :=
  mkRequest EXTRACT_MODEL (extract_prompt text) (PInt 0).

(** The world after some more events. *)
Definition after (w : World) (evs : list event) : World :=
  mkWorld (bi_encoder w) (cross_encoder w) (log w ++ evs).

(** The events of loading the encoders that are not loaded yet. *)
Definition loads (w : World) : list event :=
  (if bi_encoder w then [] else [EvLoad BI_ENCODER_NAME])
  ++ (if cross_encoder w then [] else [EvLoad CROSS_ENCODER_NAME]).

(** The verdict of the gate on two strings, and the encoder calls it makes
    on the way. *)
Section Gate.

Variable cos_sim : string -> string -> spec_float.
Variable cross_predict : string -> string -> spec_float.

Definition same_normalized (original candidate : string) : bool :=
  String.eqb (Str.lower (Str.strip original)) (Str.lower (Str.strip candidate)).

Definition accepts (original candidate : string) : bool :=
  negb (same_normalized original candidate)
  && negb (F64.ltb (cos_sim original candidate) F64.lit_0_8)
  && negb (F64.ltb (cross_predict original candidate) F64.lit_0_75).

Definition gate_events (original candidate : string) : list event :=
  if same_normalized original candidate then []
  else if F64.ltb (cos_sim original candidate) F64.lit_0_8
       then [EvCosSim original candidate]
       else [EvCosSim original candidate; EvPredict original candidate].

End Gate.

(** Whether the temperature rises from each of the [n] attempts that
    start at attempt [k] to the next one. *)
Fixpoint escalates_from (n : nat) (k : Z) : bool :=
  match n with
  | O => true
  | S n' =>
      match dynamic_temp k, dynamic_temp (k + 1) with
      | Some t, Some t' => F64.ltb t t'
      | _, _ => false
      end && escalates_from n' (k + 1)
  end.

(** ** Vocabulary of the further properties *)

(** Only white space. *)
Definition all_space (s : string) : bool := Str.all_chars Str.is_space s.

(** A string that does not begin with white space. *)
Definition no_leading_space (s : string) : Prop :=
  match s with
  | EmptyString => True
  | String c _ => Str.is_space c = false
  end.


Definition is_backtick (c : ascii) : bool := Ascii.eqb c "`".

Definition no_backtick (s : string) : bool :=
  Str.all_chars (fun c => negb (is_backtick c)) s.

(** No character of the text opens a JSON value. *)
Definition opens_nothing (s : string) : bool :=
  Str.all_chars (fun c => negb (Ascii.eqb c "{") && negb (Ascii.eqb c "[")) s.


(** The model loadings among some events. *)
Fixpoint load_events (evs : list event) : list event :=
  match evs with
  | [] => []
  | EvLoad name :: evs' => EvLoad name :: load_events evs'
  | _ :: evs' => load_events evs'
  end.

(** From the world [w] the events [evs] lead to the world [w']: the log
    grows by [evs], and either no encoder was loaded and the two globals
    are as they were, or exactly the encoders that [w] lacked were loaded
    and both globals are set. *)
Definition leads_to (w w' : World) (evs : list event) : Prop :=
  log w' = (log w ++ evs)%list /\
  ((load_events evs = [] /\
    bi_encoder w' = bi_encoder w /\ cross_encoder w' = cross_encoder w)
   \/ (load_events evs = loads w /\ bi_encoder w' = true /\ cross_encoder w' = true)).

(** The loop body gives a result for [q]: an object whose text counts as
    true. *)
Definition has_text (q : pyval) : bool :=
  match q with
  | PDict d => truthy (dict_get "question" d (PStr ""))
  | _ => false
  end.

(** The record [r] carries the text and the id of the object [q]. *)
Definition carries (q : pyval) (r : Result) : Prop :=
  exists d, q = PDict d /\
    Original_Question r = dict_get "question" d (PStr "") /\
    ID r = dict_get "id" d (PStr "?").

(** A document in a code fence, as a chat model often writes it. *)
Definition fenced (body : string) : string :=
  "```json" ++ Str.nl ++ body ++ Str.nl ++ "```".


(** ** Sample collaborators, for running the model on concrete inputs *)

Module Sample.

(** A chat service that reads its answers from a script, one per request. *)
Definition scripted (script : list string) : list event -> request -> string :=
  fun history _ => nth (List.length (chats history)) script "".

(** 0.9 and 0.5 *)
Definition high : spec_float := S754_finite false 8106479329266893 (-53).
Definition low : spec_float := S754_finite false 4503599627370496 (-53).

Definition similar : string -> string -> spec_float := fun _ _ => high.
Definition dissimilar : string -> string -> spec_float := fun _ _ => low.

Definition two_questions_json : string :=
  "[{" ++ Str.dq ++ "id" ++ Str.dq ++ ": 1, " ++ Str.dq ++ "question" ++ Str.dq
  ++ ": " ++ Str.dq ++ "What is 2+2?" ++ Str.dq ++ "}, "
  ++ Str.dq ++ "What is 3+3?" ++ Str.dq ++ "]".

Definition two_questions : list pyval :=
  [PDict [("id", PInt 1); ("question", PStr "What is 2+2?")]; PStr "What is 3+3?"].

Definition string_map_json : string :=
  "{" ++ Str.dq ++ "Q1" ++ Str.dq ++ ": " ++ Str.dq ++ "Define entropy." ++ Str.dq ++ "}".

(** [json.loads] on the documents used below. *)
Definition json_loads (s : string) : option pyval :=
  if String.eqb s two_questions_json then Some (PList two_questions)
  else if String.eqb s string_map_json then Some (PDict [("Q1", PStr "Define entropy.")])
  else None.

Definition one_page : page :=
  mkPage "Answer every question.  1. What is 2+2?  2. What is 3+3?" 1654 2339 "".

Definition fitz_open (_ : list Byte.byte) : option (list page) := Some [one_page].

Definition repr (_ : pyval) : string := "<value>".

Definition w0 : World := mkWorld false false [].

Definition clear_answer : string := "1. Score: 10" ++ Str.nl ++ "2. Justification: Clear.".
Definition confusing_answer : string :=
  "1. Score: 85" ++ Str.nl ++ "2. Justification: Ambiguous pronoun.".

Definition record_2_plus_2 : pydict :=
  [("id", PInt 1); ("question", PStr "What is 2+2?")].

Definition record_without_id : pydict := [("question", PStr "What is 2+2?")].

Definition question : pyval := PStr "What is 2+2?".

(** The world after the scoring model gave [answer] about [question]. *)
Definition scored (answer : string) : World :=
  after w0 [EvChat (score_request repr question) answer].

Definition four_records : list pyval :=
  [PDict record_without_id;
   PDict [("id", PInt 2); ("question", PStr "")];
   PDict [("id", PInt 3)];
   PDict [("id", PInt 4); ("question", PStr "What is 3+3?")]].

(** A bi-encoder that finds one wording close to anything and every other
    wording far from it. *)
Definition close_to_good (_ candidate : string) : spec_float :=
  if String.eqb candidate "How much is two plus two?" then high else low.

Definition no_bytes : list Byte.byte := [].

(** The page of [one_page] scanned again: the same digital text, another
    pixmap and OCR reading. *)
Definition one_page_rescanned : page :=
  mkPage "Answer every question.  1. What is 2+2?  2. What is 3+3?" 4000 5000 "An5wer".

Definition fitz_open_rescanned (_ : list Byte.byte) : option (list page) :=
  Some [one_page_rescanned].

(** A page without digital text, rendered at 5000 by 4000 pixels. *)
Definition huge_scan : page := mkPage "  " 5000 4000 "1. What is 2+2?".

Definition fitz_open_scans (_ : list Byte.byte) : option (list page) :=
  Some [huge_scan; huge_scan].

Definition unreadable (_ : list Byte.byte) : option (list page) := None.

Definition sixth_passes : list string :=
  [confusing_answer; "2+2?"; "Two and two?"; "Sum?"; "Add 2, 2"; "2 plus 2";
   " How much is two plus two? "].

Definition record_with_number : pydict := [("id", PInt 1); ("question", PInt 7)].

Definition entropy_record : list pyval :=
  [PDict [("id", PStr "Q1"); ("question", PStr "Define entropy.")]].

End Sample.

(** ** Properties *)

(** *** Binary64 comparison *)



(** *** Trimming and case folding *)

Lemma str_app_nil_r (s : string) : s ++ "" = s.
Proof. induction s as [ | c s IH]; simpl; [ reflexivity | rewrite IH; reflexivity ]. Qed.

Lemma str_app_assoc (s t u : string) : (s ++ t) ++ u = s ++ t ++ u.
Proof. induction s as [ | c s IH]; simpl; [ reflexivity | rewrite IH; reflexivity ]. Qed.

Lemma all_chars_app (p : ascii -> bool) (s t : string) :
  Str.all_chars p (s ++ t) = Str.all_chars p s && Str.all_chars p t.
Proof.
  induction s as [ | c s IH]; simpl; [ reflexivity | ].
  rewrite IH. apply andb_assoc.
Qed.

Lemma lstrip_no_leading_space (s : string) : no_leading_space (Str.lstrip s).
Proof.
  induction s as [ | c s IH]; simpl; [ exact I | ].
  destruct (Str.is_space c) eqn:E; [ exact IH | exact E ].
Qed.

Lemma lstrip_fixed (s : string) : no_leading_space s -> Str.lstrip s = s.
Proof.
  destruct s as [ | c s]; simpl; [ reflexivity | ].
  intros ->. reflexivity.
Qed.

Lemma rstrip_no_leading_space (s : string) :
  no_leading_space s -> no_leading_space (Str.rstrip s).
Proof.
  destruct s as [ | c s]; simpl; [ auto | ].
  intros H. destruct (Str.rstrip s); [ rewrite H | ]; exact H.
Qed.

Lemma rstrip_idempotent (s : string) : Str.rstrip (Str.rstrip s) = Str.rstrip s.
Proof.
  induction s as [ | c s IH]; simpl; [ reflexivity | ].
  destruct (Str.rstrip s) as [ | a r] eqn:E.
  - destruct (Str.is_space c) eqn:Ec; simpl; [ reflexivity | ].
    rewrite Ec. reflexivity.
  - cbn [Str.rstrip]. cbn [Str.rstrip] in IH. rewrite IH. reflexivity.
Qed.

Lemma strip_idempotent (s : string) : Str.strip (Str.strip s) = Str.strip s.
Proof.
  unfold Str.strip.
  rewrite (lstrip_fixed (Str.rstrip (Str.lstrip s))).
  - apply rstrip_idempotent.
  - apply rstrip_no_leading_space, lstrip_no_leading_space.
Qed.

Lemma lstrip_all_space (s : string) : all_space s = true -> Str.lstrip s = "".
Proof.
  unfold all_space. induction s as [ | c s IH]; simpl; [ reflexivity | ].
  intros H. apply andb_prop in H. destruct H as [-> H]. auto.
Qed.

Lemma rstrip_all_space (s : string) : all_space s = true -> Str.rstrip s = "".
Proof.
  unfold all_space. induction s as [ | c s IH]; simpl; [ reflexivity | ].
  intros H. apply andb_prop in H. destruct H as [-> H]. rewrite (IH H). reflexivity.
Qed.

Lemma strip_all_space (s : string) : all_space s = true -> Str.strip s = "".
Proof.
  intros H. unfold Str.strip. rewrite (lstrip_all_space s H). reflexivity.
Qed.

Lemma lstrip_app_space (pad s : string) :
  all_space pad = true -> Str.lstrip (pad ++ s) = Str.lstrip s.
Proof.
  unfold all_space. induction pad as [ | c pad IH]; simpl; [ reflexivity | ].
  intros H. apply andb_prop in H. destruct H as [-> H]. auto.
Qed.

Lemma rstrip_app_space (s pad : string) :
  all_space pad = true -> Str.rstrip (s ++ pad) = Str.rstrip s.
Proof.
  intros H. induction s as [ | c s IH]; simpl.
  - apply rstrip_all_space. exact H.
  - rewrite IH. reflexivity.
Qed.

Lemma strip_app_space (s pad : string) :
  all_space pad = true -> Str.strip (s ++ pad) = Str.strip s.
Proof.
  intros H. unfold Str.strip. induction s as [ | c s IH]; simpl.
  - rewrite (lstrip_all_space pad H). reflexivity.
  - destruct (Str.is_space c); [ exact IH | ].
    apply (rstrip_app_space (String c s) pad H).
Qed.

Lemma strip_padded (pad1 s pad2 : string) :
  all_space pad1 = true -> all_space pad2 = true ->
  Str.strip (pad1 ++ s ++ pad2) = Str.strip s.
Proof.
  intros H1 H2. unfold Str.strip at 1. rewrite (lstrip_app_space pad1 _ H1).
  apply (strip_app_space s pad2 H2).
Qed.

Lemma rstrip_ends_outside (s : string) (c : ascii) :
  Str.is_space c = false ->
  Str.rstrip (s ++ String c "") = s ++ String c "".
Proof.
  intros Hc. induction s as [ | a s IH]; simpl.
  - rewrite Hc. reflexivity.
  - rewrite IH. destruct (s ++ String c "") eqn:E; [ | reflexivity ].
    destruct s; discriminate.
Qed.

Lemma all_chars_lstrip (p : ascii -> bool) (s : string) :
  Str.all_chars p s = true -> Str.all_chars p (Str.lstrip s) = true.
Proof.
  induction s as [ | c s IH]; simpl; [ auto | ].
  intros H. destruct (Str.is_space c); [ | exact H ].
  apply andb_prop in H. destruct H as [_ H]. auto.
Qed.

Lemma all_chars_rstrip (p : ascii -> bool) (s : string) :
  Str.all_chars p s = true -> Str.all_chars p (Str.rstrip s) = true.
Proof.
  induction s as [ | c s IH]; simpl; [ auto | ].
  intros H. apply andb_prop in H. destruct H as [Hc H].
  specialize (IH H).
  destruct (Str.rstrip s).
  - destruct (Str.is_space c); simpl; [ reflexivity | rewrite Hc; reflexivity ].
  - simpl in *. rewrite Hc. exact IH.
Qed.

Lemma all_chars_strip (p : ascii -> bool) (s : string) :
  Str.all_chars p s = true -> Str.all_chars p (Str.strip s) = true.
Proof.
  intros H. apply all_chars_rstrip, all_chars_lstrip, H.
Qed.

Lemma is_space_lower_char (c : ascii) :
  Str.is_space (Str.lower_char c) = Str.is_space c.
Proof.
  destruct c as [[] [] [] [] [] [] [] []]; reflexivity.
Qed.

Lemma lower_char_idempotent (c : ascii) :
  Str.lower_char (Str.lower_char c) = Str.lower_char c.
Proof.
  destruct c as [[] [] [] [] [] [] [] []]; reflexivity.
Qed.

Lemma lower_idempotent (s : string) : Str.lower (Str.lower s) = Str.lower s.
Proof.
  induction s as [ | c s IH]; simpl; [ reflexivity | ].
  rewrite lower_char_idempotent, IH. reflexivity.
Qed.

Lemma lstrip_lower (s : string) : Str.lstrip (Str.lower s) = Str.lower (Str.lstrip s).
Proof.
  induction s as [ | c s IH]; simpl; [ reflexivity | ].
  rewrite is_space_lower_char. destruct (Str.is_space c); [ exact IH | reflexivity ].
Qed.

Lemma rstrip_lower (s : string) : Str.rstrip (Str.lower s) = Str.lower (Str.rstrip s).
Proof.
  induction s as [ | c s IH]; simpl; [ reflexivity | ].
  rewrite IH, is_space_lower_char.
  destruct (Str.rstrip s); simpl; [ destruct (Str.is_space c) | ]; reflexivity.
Qed.

Lemma strip_lower (s : string) : Str.strip (Str.lower s) = Str.lower (Str.strip s).
Proof.
  unfold Str.strip. rewrite lstrip_lower. apply rstrip_lower.
Qed.

Section Properties.

Variable chat : list event -> request -> string.
Variable cos_sim : string -> string -> spec_float.
Variable cross_predict : string -> string -> spec_float.
Variable json_loads : string -> option pyval.
Variable fitz_open : list Byte.byte -> option (list page).
Variable repr : pyval -> string.

(** *** The gate *)

Lemma load_encoders_run (w : World) :
  bind load_bi_encoder (fun _ => load_cross_encoder) w
  = Ok tt (mkWorld true true (log w ++ loads w)).
Proof.
  destruct w as [bi cr lg]. unfold bind, load_bi_encoder, load_cross_encoder, loads.
  destruct bi, cr; simpl; rewrite ?app_nil_r, <- ?app_assoc; reflexivity.
Qed.

Lemma validate_strings (o c : string) (w : World) :
  validate cos_sim cross_predict (PStr o) (PStr c) w
  = Ok (accepts cos_sim cross_predict o c)
       (mkWorld true true
          (log w ++ loads w ++ gate_events cos_sim o c)).
Proof.
  unfold validate.
  change (bind load_bi_encoder ?k w)
    with (match load_bi_encoder w with Ok a w' => k a w' | Raise e w' => Raise e w' end).
  pose proof (load_encoders_run w) as L. unfold bind in L.
  unfold bind at 1.
  destruct (load_bi_encoder w) as [[] w1 | e w1]; [ | discriminate ].
  unfold bind at 1. rewrite L.
  unfold accepts, gate_events, same_normalized, as_str, bind, ret,
    bi_score_of, cross_score_of, emit.
  simpl.
  destruct (String.eqb (Str.lower (Str.strip o)) (Str.lower (Str.strip c))); simpl.
  - rewrite app_nil_r. reflexivity.
  - destruct (F64.ltb (cos_sim o c) F64.lit_0_8); simpl.
    + rewrite <- app_assoc. reflexivity.
    + destruct (F64.ltb (cross_predict o c) F64.lit_0_75); simpl;
        rewrite <- !app_assoc; reflexivity.
Qed.


(** *** The rephraser *)

Lemma escalates_from_sound (n : nat) :
  forall k0 k,
    escalates_from n k0 = true -> k0 <= k < k0 + Z.of_nat n ->
    exists t t',
      dynamic_temp k = Some t /\ dynamic_temp (k + 1) = Some t' /\ F64.ltb t t' = true.
Proof.
  induction n as [ | n IH]; intros k0 k H Hk.
  - simpl in Hk. lia.
  - cbn [escalates_from] in H. apply andb_prop in H. destruct H as [H1 H2].
    destruct (Z.eq_dec k k0) as [-> | Hne].
    + destruct (dynamic_temp k0) as [t | ]; [ | discriminate ].
      destruct (dynamic_temp (k0 + 1)) as [t' | ]; [ | discriminate ].
      exists t, t'. auto.
    + apply (IH (k0 + 1)); [ exact H2 | lia ].
Qed.

Lemma temperature_rises_below_4096 (k : Z) :
  0 <= k < 4096 ->
  exists t t',
    dynamic_temp k = Some t /\ dynamic_temp (k + 1) = Some t' /\ F64.ltb t t' = true.
Proof.
  intros Hk. apply (escalates_from_sound 4096 0); [ vm_compute; reflexivity | lia ].
Qed.

Lemma rephrase_run (question : pyval) (score : Z) (justification : string)
    (attempt : Z) (temp : spec_float) (w : World) :
  dynamic_temp attempt = Some temp ->
  rephrase chat repr question score justification attempt w
  = let r := rephrase_request repr question justification attempt temp in
    Ok (Str.strip (chat (log w) r)) (after w [EvChat r (chat (log w) r)]).
Proof.
  intros H. unfold rephrase. rewrite H. reflexivity.
Qed.

(** C4. The request that [rephrase] sends for attempt [k] carries the
    temperature [0.2 + k * 0.1], computed in binary64, and from each attempt
    of the loop to the next one this temperature strictly increases. *)
Theorem temperature_escalates (question : pyval) (score : Z)
    (justification : string) (k : Z) :
  0 <= k -> k + 1 < Z.of_nat MAX_ATTEMPTS ->
  exists a a' t t',
    F64.of_int k = Some a /\
    F64.of_int (k + 1) = Some a' /\
    t = F64.add F64.lit_0_2 (F64.mul a F64.lit_0_1) /\
    t' = F64.add F64.lit_0_2 (F64.mul a' F64.lit_0_1) /\
    (forall w, exists response,
        rephrase chat repr question score justification k w
        = Ok (Str.strip response)
             (after w [EvChat (rephrase_request repr question justification k t)
                         response])) /\
    (forall w, exists response,
        rephrase chat repr question score justification (k + 1) w
        = Ok (Str.strip response)
             (after w [EvChat (rephrase_request repr question justification (k + 1) t')
                         response])) /\
    F64.ltb t t' = true.
Proof.
  intros H0 H6.
  destruct (temperature_rises_below_4096 k) as (t & t' & Ht & Ht' & Hlt).
  { unfold MAX_ATTEMPTS in H6. lia. }
  pose proof Ht as Et. pose proof Ht' as Et'.
  unfold dynamic_temp in Et, Et'.
  destruct (F64.of_int k) as [a | ]; [ | discriminate ].
  destruct (F64.of_int (k + 1)) as [a' | ]; [ | discriminate ].
  injection Et as Et. injection Et' as Et'.
  exists a, a', t, t'. repeat split; auto.
  - intros w. eexists. rewrite (rephrase_run _ _ _ _ _ _ Ht). reflexivity.
  - intros w. eexists. rewrite (rephrase_run _ _ _ _ _ _ Ht'). reflexivity.
Qed.

(** *** The scorer *)

Lemma score_question_run (question : pyval) (w : World) :
  score_question chat repr question w
  = let r := score_request repr question in
    Ok (parse_assessment (chat (log w) r)) (after w [EvChat r (chat (log w) r)]).
Proof. reflexivity. Qed.

Lemma search_found (m : Re.cont) (s r : string) :
  Re.search m s = Some r -> exists s', m s' = Some r.
Proof.
  induction s as [ | c s IH]; simpl; intros H.
  - destruct (m "") eqn:E; [ | discriminate ]. exists "". congruence.
  - destruct (m (String c s)) eqn:E.
    + exists (String c s). congruence.
    + auto.
Qed.

Lemma skip_star_found (p : ascii -> bool) (k : Re.cont) (s r : string) :
  Re.skip_star p k s = Some r -> exists s', k s' = Some r.
Proof.
  induction s as [ | c s IH]; simpl; intros H.
  - eauto.
  - destruct (p c); [ | eauto ].
    destruct (Re.skip_star p k s) eqn:E; [ | eauto ].
    apply IH. congruence.
Qed.

Lemma skip_lit_found (l : string) (k : Re.cont) (s r : string) :
  Re.skip_lit l k s = Some r -> exists s', k s' = Some r.
Proof.
  unfold Re.skip_lit. destruct (Str.drop_prefix l s); [ eauto | discriminate ].
Qed.

Lemma take_star_stop_chars (p : ascii -> bool) (s r : string) :
  Re.take_star p Re.stop s = Some r -> Str.all_chars p r = true.
Proof.
  revert r. induction s as [ | c s IH]; simpl; intros r H.
  - injection H as <-. reflexivity.
  - destruct (p c) eqn:Ec.
    + destruct (Re.take_star p Re.stop s) as [m | ] eqn:E.
      * injection H as <-. simpl. rewrite Ec. simpl. apply IH. reflexivity.
      * injection H as <-. reflexivity.
    + injection H as <-. reflexivity.
Qed.

Lemma take_plus_stop_chars (p : ascii -> bool) (s r : string) :
  Re.take_plus p Re.stop s = Some r -> Str.all_chars p r = true /\ r <> "".
Proof.
  unfold Re.take_plus. destruct s as [ | c s]; [ discriminate | ].
  destruct (p c) eqn:Ec; [ | discriminate ].
  destruct (Re.take_star p Re.stop s) as [m | ] eqn:E; simpl; [ | discriminate ].
  intros H. injection H as <-. simpl. rewrite Ec.
  split; [ apply (take_star_stop_chars _ _ _ E) | discriminate ].
Qed.



Lemma parse_assessment_cases (txt : string) :
  parse_assessment txt = degraded
  \/ exists digits group1,
       Re.search score_re txt = Some digits /\
       Re.search justification_re txt = Some group1 /\
       parse_assessment txt = (Str.int_of_digits digits, Str.strip group1).
Proof.
  unfold parse_assessment.
  destruct (Re.search score_re txt) as [digits | ]; [ | now left ].
  destruct (Re.search justification_re txt) as [group1 | ]; [ | now left ].
  right. exists digits, group1. auto.
Qed.


(** *** The extractor *)

Lemma dict_get_lookup (key : string) (d : pydict) (default : pyval) :
  dict_get key d default
  = match dict_lookup key d with Some v => v | None => default end.
Proof.
  induction d as [ | [k v] d IH]; simpl; [ reflexivity | ].
  destruct (String.eqb k key); auto.
Qed.







Lemma get_questions_nonempty (text : string) (w : World) :
  text <> "" ->
  get_questions chat json_loads text w
  = let r := extract_request text in
    bind (chat_create chat r)
      (fun response =>
         match _safe_json_load json_loads response with
         | None => ret []
         | Some (PList l) => ret l
         | Some (PDict raw) =>
             match first_list_under ["questions"; "exam_questions"] raw with
             | Some l => ret l
             | None =>
                 if forallb is_str (dict_values raw) then
                   ret (map (fun kv => PDict [("id", PStr (fst kv)); ("question", snd kv)]) raw)
                 else ret []
             end
         | Some _ => ret []
         end) w.
Proof.
  intros H. unfold get_questions.
  destruct (String.eqb_spec text ""); [ contradiction | reflexivity ].
Qed.



(** *** What a stretch of the log holds *)

Lemma candidates_app (a b : list event) :
  candidates (a ++ b) = (candidates a ++ candidates b)%list.
Proof.
  induction a as [ | [r resp | | | | ] a IH]; simpl; auto.
  destruct (String.eqb (model r) REPHRASE_MODEL); simpl; congruence.
Qed.

Lemma rejections_app (a b : list event) :
  rejections (a ++ b) = (rejections a ++ rejections b)%list.
Proof.
  induction a as [ | [ | | | | [ | | | | ]] a IH]; simpl; congruence.
Qed.

Lemma cos_sim_calls_app (a b : list event) :
  cos_sim_calls (a ++ b) = (cos_sim_calls a ++ cos_sim_calls b)%list.
Proof.
  induction a as [ | [ | | | | ] a IH]; simpl; congruence.
Qed.

Lemma predict_calls_app (a b : list event) :
  predict_calls (a ++ b) = (predict_calls a ++ predict_calls b)%list.
Proof.
  induction a as [ | [ | | | | ] a IH]; simpl; congruence.
Qed.

Lemma loads_silent (w : World) :
  candidates (loads w) = [] /\ rejections (loads w) = []
  /\ cos_sim_calls (loads w) = [] /\ predict_calls (loads w) = [].
Proof.
  unfold loads. destruct (bi_encoder w), (cross_encoder w); simpl; auto.
Qed.

Lemma gate_events_calls (o c : string) :
  candidates (gate_events cos_sim o c) = [] /\
  rejections (gate_events cos_sim o c) = [] /\
  (List.length (cos_sim_calls (gate_events cos_sim o c)) <= 1)%nat /\
  (List.length (predict_calls (gate_events cos_sim o c)) <= 1)%nat.
Proof.
  unfold gate_events.
  destruct (same_normalized o c); [ simpl; auto | ].
  destruct (F64.ltb (cos_sim o c) F64.lit_0_8); simpl; auto.
Qed.

(** *** The remediation loop *)

Lemma validate_effects (original : pyval) (c : string) (w : World) :
  exists evs,
    candidates evs = [] /\ rejections evs = [] /\
    (List.length (cos_sim_calls evs) <= 1)%nat /\
    (List.length (predict_calls evs) <= 1)%nat /\
    ((exists o, original = PStr o /\
        validate cos_sim cross_predict original (PStr c) w
        = Ok (accepts cos_sim cross_predict o c) (mkWorld true true (log w ++ evs)))
     \/ ((forall o, original <> PStr o) /\
         validate cos_sim cross_predict original (PStr c) w
         = Raise AttributeError (mkWorld true true (log w ++ evs)))).
Proof.
  destruct (loads_silent w) as (L1 & L2 & L3 & L4).
  destruct (is_str original) eqn:S.
  - destruct original as [ | | | | o | | ]; try discriminate.
    destruct (gate_events_calls o c) as (G1 & G2 & G3 & G4).
    exists (loads w ++ gate_events cos_sim o c)%list.
    rewrite candidates_app, rejections_app, cos_sim_calls_app, predict_calls_app.
    rewrite L1, L2, L3, L4, G1, G2. simpl.
    repeat split; auto.
    left. exists o. split; [ reflexivity | apply validate_strings ].
  - exists (loads w). rewrite L1, L2, L3, L4. simpl.
    repeat split; auto.
    right. split; [ intros o ->; discriminate | ].
    pose proof (load_encoders_run w) as L.
    unfold validate. unfold bind in *.
    destruct (load_bi_encoder w) as [[] w1 | e w1]; [ | discriminate ].
    rewrite L.
    destruct original; try discriminate; reflexivity.
Qed.

Lemma attempt_loop_spec (d : pydict) (original : pyval) (score : Z)
    (justification : string) :
  forall (attempts : list Z) (w : World),
  exists evs,
    log (world_of (attempt_loop chat cos_sim cross_predict repr d original score
                     justification attempts w)) = (log w ++ evs)%list /\
    (List.length (candidates evs) <= List.length attempts)%nat /\
    (List.length (rejections evs) <= List.length (candidates evs))%nat /\
    (List.length (cos_sim_calls evs) <= List.length (candidates evs))%nat /\
    (List.length (predict_calls evs) <= List.length (candidates evs))%nat /\
    forall final status w',
      attempt_loop chat cos_sim cross_predict repr d original score
        justification attempts w = Ok (final, status) w' ->
      (status = "Original Kept" /\ final = original /\
       List.length (candidates evs) = List.length attempts /\
       rejections evs = map (fun attempt => attempt + 1) attempts /\
       (attempts <> [] -> exists o, original = PStr o) /\
       (forall o, original = PStr o ->
          Forall (fun c => accepts cos_sim cross_predict o c = false) (candidates evs)))
      \/
      (status = "Rephrased" /\
       exists o c rejected,
         original = PStr o /\ final = PStr c /\
         candidates evs = (rejected ++ [c])%list /\
         Forall (fun c' => accepts cos_sim cross_predict o c' = false) rejected /\
         accepts cos_sim cross_predict o c = true /\
         List.length (rejections evs) = List.length rejected).
Proof.
  induction attempts as [ | attempt attempts IH]; intros w.
  - exists []. cbn [attempt_loop]. unfold ret. simpl. rewrite app_nil_r.
    repeat split; auto.
    intros final status w' E. inversion E; subst. left.
    repeat split; auto. congruence.
  - remember (attempt_loop chat cos_sim cross_predict repr d original score
                justification (attempt :: attempts) w) as out eqn:O.
    cbn [attempt_loop] in O. unfold bind at 1 in O.
    destruct (dynamic_temp attempt) as [temp | ] eqn:T.
    2:{ unfold rephrase in O. rewrite T in O. unfold raise in O. subst out.
        exists []. simpl. rewrite app_nil_r.
        repeat split; auto with arith. discriminate. }
    rewrite (rephrase_run _ _ _ _ _ _ T) in O. cbv zeta in O.
    set (req := rephrase_request repr original justification attempt temp) in *.
    set (resp := chat (log w) req) in *.
    set (w1 := after w [EvChat req resp]) in *.
    assert (C1 : candidates [EvChat req resp] = [Str.strip resp]).
    { cbn [candidates]. unfold req, rephrase_request. cbn [model].
      rewrite String.eqb_refl. reflexivity. }
    destruct (validate_effects original (Str.strip resp) w1)
      as (ev & V1 & V2 & V3 & V4 & [(o & -> & V) | (Hno & V)]).
    + unfold bind at 1 in O. rewrite V in O.
      destruct (accepts cos_sim cross_predict o (Str.strip resp)) eqn:A.
      * unfold ret in O. subst out.
        exists ([EvChat req resp] ++ ev)%list.
        rewrite candidates_app, rejections_app, cos_sim_calls_app, predict_calls_app.
        rewrite C1, V1, V2. cbn [world_of log w1 after].
        rewrite <- app_assoc. cbn [rejections cos_sim_calls predict_calls app List.length].
        repeat split; auto with arith.
        intros final status w' E. inversion E; subst. right.
        split; [ reflexivity | ].
        exists o, (Str.strip resp), []. repeat split; auto.
      * unfold bind at 1 in O. unfold print, emit in O.
        cbn [bi_encoder cross_encoder log] in O.
        set (line := EvPrint (OutAttemptFailed (attempt + 1) (dict_get "id" d PNone))) in *.
        set (w3 := mkWorld true true ((log w1 ++ ev) ++ [line])) in *.
        destruct (IH w3) as (evs & L & B1 & B2 & B3 & B4 & R).
        subst out.
        exists ([EvChat req resp] ++ ev ++ [line] ++ evs)%list.
        rewrite !candidates_app, !rejections_app, !cos_sim_calls_app, !predict_calls_app.
        rewrite C1, V1, V2.
        rewrite L. cbn [log w3 w1 after].
        cbn [candidates rejections cos_sim_calls predict_calls line app List.length].
        rewrite !length_app.
        split; [ rewrite <- !app_assoc; reflexivity | ].
        split; [ lia | ]. split; [ lia | ]. split; [ lia | ]. split; [ lia | ].
        intros final status w' E. destruct (R final status w' E)
          as [(-> & -> & R1 & R2 & R3 & R4) | (-> & o' & c & rej & [= <-] & -> & R1 & R2 & R3 & R4)].
        -- left. repeat split; auto.
           ++ cbn [map]. congruence.
           ++ eauto.
           ++ intros o' [= <-]. constructor; auto.
        -- right. split; [ reflexivity | ].
           exists o, c, (Str.strip resp :: rej).
           rewrite R1. repeat split; auto. simpl. congruence.
    + unfold bind at 1 in O. rewrite V in O. subst out.
      exists ([EvChat req resp] ++ ev)%list.
      rewrite candidates_app, rejections_app, cos_sim_calls_app, predict_calls_app.
      rewrite C1, V1, V2. cbn [world_of log w1 after].
      rewrite <- app_assoc. cbn [rejections cos_sim_calls predict_calls app List.length].
      repeat split; auto with arith. discriminate.
Qed.

Lemma run_body_scored (d : pydict) (w : World) :
  truthy (dict_get "question" d (PStr "")) = true ->
  run_body chat cos_sim cross_predict repr (PDict d) w
  = let original := dict_get "question" d (PStr "") in
    let r := score_request repr original in
    let w1 := after w [EvChat r (chat (log w) r)] in
    let score := fst (parse_assessment (chat (log w) r)) in
    let justification := snd (parse_assessment (chat (log w) r)) in
    if score >? 20 then
      match attempt_loop chat cos_sim cross_predict repr d original score
              justification (range MAX_ATTEMPTS) w1 with
      | Ok (final, status) w2 =>
          Ok (Some (mkResult (dict_get "id" d (PStr "?")) original score justification
                      final
                      (if String.eqb status "Original Kept"
                       then "Manual Review Required" else status))) w2
      | Raise e w2 => Raise e w2
      end
    else
      Ok (Some (mkResult (dict_get "id" d (PStr "?")) original score justification
                  original "Original Kept")) w1.
Proof.
  intros H. unfold run_body. rewrite H. cbn [negb]. cbv zeta.
  unfold bind at 1. rewrite score_question_run. cbv zeta.
  destruct (parse_assessment _) as [score justification]. cbn [fst snd].
  destruct (score >? 20).
  - unfold bind.
    destruct (attempt_loop _ _ _ _ _ _ _ _ _ _) as [[final status] w2 | e w2];
      [ | reflexivity ].
    destruct (String.eqb status "Original Kept"); reflexivity.
  - reflexivity.
Qed.

Lemma run_body_skip (d : pydict) (w : World) :
  truthy (dict_get "question" d (PStr "")) = false ->
  run_body chat cos_sim cross_predict repr (PDict d) w = Ok None w.
Proof.
  intros H. unfold run_body. rewrite H. reflexivity.
Qed.

(** C1. When the scorer gives a question a score of at most 20, the loop
    body appends a record whose status is [Original Kept] and whose final
    version is the original text, and the world is the one the scorer left:
    the scoring request is the only request, no rephrasing is asked for. *)
Theorem clear_question_kept (d : pydict) (original : pyval) (w w1 : World)
    (score : Z) (justification : string) :
  dict_get "question" d (PStr "") = original ->
  truthy original = true ->
  score_question chat repr original w = Ok (score, justification) w1 ->
  score <= 20 ->
  run_body chat cos_sim cross_predict repr (PDict d) w
  = Ok (Some (mkResult (dict_get "id" d (PStr "?")) original score justification
                original "Original Kept")) w1
  /\ w1 = after w [EvChat (score_request repr original)
                     (chat (log w) (score_request repr original))]
  /\ candidates [EvChat (score_request repr original)
                   (chat (log w) (score_request repr original))] = [].
Proof.
  intros Ho Ht Hs Hle. subst original.
  rewrite score_question_run in Hs. cbv zeta in Hs.
  injection Hs as Hp Hw.
  rewrite (run_body_scored d w Ht). cbv zeta.
  rewrite Hp. cbn [fst snd].
  destruct (Z.gtb_spec score 20) as [Hgt | _]; [ lia | ].
  rewrite Hw. repeat split; auto.
Qed.

(** C8. When the response of the scoring model has no match for the score
    pattern or none for the justification pattern, the scorer returns
    exactly the degraded assessment, score 0 with the justification
    [Could not parse score.], and raises nothing; the loop body then keeps
    the question as it is, with status [Original Kept]. *)
Theorem malformed_score_degrades (question : pyval) (d : pydict) (w : World)
    (response : string) :
  chat (log w) (score_request repr question) = response ->
  Re.search score_re response = None \/ Re.search justification_re response = None ->
  score_question chat repr question w
  = Ok (0, "Could not parse score.")
       (after w [EvChat (score_request repr question) response])
  /\ (dict_get "question" d (PStr "") = question -> truthy question = true ->
      run_body chat cos_sim cross_predict repr (PDict d) w
      = Ok (Some (mkResult (dict_get "id" d (PStr "?")) question 0
                    "Could not parse score." question "Original Kept"))
           (after w [EvChat (score_request repr question) response])).
Proof.
  intros R H.
  assert (P : parse_assessment response = degraded).
  { unfold parse_assessment. destruct H as [-> | H]; [ reflexivity | ].
    rewrite H. destruct (Re.search score_re response); reflexivity. }
  split.
  - rewrite score_question_run. cbv zeta. rewrite R, P. reflexivity.
  - intros Hq Ht. rewrite <- Hq in Ht.
    rewrite (run_body_scored d w Ht). cbv zeta. rewrite Hq, R, P. reflexivity.
Qed.

Lemma score_request_not_candidate (question : pyval) (response : string) :
  candidates [EvChat (score_request repr question) response] = []
  /\ rejections [EvChat (score_request repr question) response] = []
  /\ cos_sim_calls [EvChat (score_request repr question) response] = []
  /\ predict_calls [EvChat (score_request repr question) response] = [].
Proof. repeat split; reflexivity. Qed.

(** C2. Whatever the question and the world, the loop body asks for at most
    six rephrasings, and the gate speaks at most once for each: rejections,
    bi-encoder calls and cross-encoder calls are each at most as many as
    the candidates.  A record has the status [Manual Review Required]
    exactly when its score is above 20 and six candidates were produced
    and rejected one after the other (attempts 1 to 6); its final version
    is then the original text. *)
Theorem remediation_attempts_bounded (q : pyval) (w : World) :
  exists evs,
    log (world_of (run_body chat cos_sim cross_predict repr q w)) = (log w ++ evs)%list /\
    (List.length (candidates evs) <= MAX_ATTEMPTS)%nat /\
    (List.length (rejections evs) <= List.length (candidates evs))%nat /\
    (List.length (cos_sim_calls evs) <= List.length (candidates evs))%nat /\
    (List.length (predict_calls evs) <= List.length (candidates evs))%nat /\
    forall r w',
      run_body chat cos_sim cross_predict repr q w = Ok (Some r) w' ->
      (Status r = "Manual Review Required" <->
         Score r > 20 /\
         List.length (candidates evs) = MAX_ATTEMPTS /\
         rejections evs = [1; 2; 3; 4; 5; 6] /\
         exists o, Original_Question r = PStr o /\
           Forall (fun c => accepts cos_sim cross_predict o c = false) (candidates evs))
      /\ (Status r = "Manual Review Required" -> Final_Version r = Original_Question r).
Proof.
  assert (quiet : forall o : outcome (option Result),
            (forall r w', o <> Ok (Some r) w') -> world_of o = w ->
            exists evs,
              log (world_of o) = (log w ++ evs)%list /\
              (List.length (candidates evs) <= MAX_ATTEMPTS)%nat /\
              (List.length (rejections evs) <= List.length (candidates evs))%nat /\
              (List.length (cos_sim_calls evs) <= List.length (candidates evs))%nat /\
              (List.length (predict_calls evs) <= List.length (candidates evs))%nat /\
              forall r w', o = Ok (Some r) w' ->
                (Status r = "Manual Review Required" <->
                   Score r > 20 /\
                   List.length (candidates evs) = MAX_ATTEMPTS /\
                   rejections evs = [1; 2; 3; 4; 5; 6] /\
                   exists o, Original_Question r = PStr o /\
                     Forall (fun c => accepts cos_sim cross_predict o c = false)
                       (candidates evs))
                /\ (Status r = "Manual Review Required" ->
                    Final_Version r = Original_Question r)).
  { intros o Hno Hw. exists []. rewrite Hw, app_nil_r. simpl.
    repeat split; auto with arith; intros; exfalso; eapply Hno; eassumption. }
  destruct q as [ | b | n | x | s | l | d];
    try (apply quiet; [ discriminate | reflexivity ]).
  destruct (truthy (dict_get "question" d (PStr ""))) eqn:Ht.
  2:{ rewrite (run_body_skip d w Ht). apply quiet; [ discriminate | reflexivity ]. }
  rewrite (run_body_scored d w Ht). cbv zeta.
  set (original := dict_get "question" d (PStr "")).
  set (req := score_request repr original).
  set (resp := chat (log w) req).
  set (score := fst (parse_assessment resp)).
  set (justification := snd (parse_assessment resp)).
  destruct (score_request_not_candidate original resp) as (S1 & S2 & S3 & S4).
  fold req in S1, S2, S3, S4.
  destruct (Z.gtb_spec score 20) as [Hgt | Hle].
  - destruct (attempt_loop_spec d original score justification (range MAX_ATTEMPTS)
                (after w [EvChat req resp]))
      as (evs & L & B1 & B2 & B3 & B4 & R).
    exists ([EvChat req resp] ++ evs)%list.
    rewrite candidates_app, rejections_app, cos_sim_calls_app, predict_calls_app.
    rewrite S1, S2, S3, S4. cbn [app].
    split.
    { destruct (attempt_loop _ _ _ _ _ _ _ _ _ _) as [[final status] w2 | e w2];
        cbn [world_of] in *; rewrite L; cbn [after log];
        rewrite <- app_assoc; reflexivity. }
    do 4 (split; [ assumption | ]).
    intros r w' E.
    destruct (attempt_loop _ _ _ _ _ _ _ _ _ _) as [[final status] w2 | e w2];
      [ | discriminate ].
    destruct (R final status w2 eq_refl)
      as [(-> & -> & R1 & R2 & R3 & R4) | (-> & o & c & rej & Ho & -> & R1 & R2 & R3 & R4)].
    + cbn [String.eqb Ascii.eqb Bool.eqb] in E. injection E as <- <-. cbn [Status Score Final_Version Original_Question].
      split; [ | reflexivity ].
      split; [ intros _ | reflexivity ].
      split; [ lia | ]. split; [ exact R1 | ]. split; [ rewrite R2; reflexivity | ].
      destruct R3 as [o Ho]; [ discriminate | ].
      exists o. split; [ exact Ho | apply R4; exact Ho ].
    + cbn [String.eqb Ascii.eqb Bool.eqb] in E. injection E as <- <-. cbn [Status Score Final_Version Original_Question].
      split; [ | discriminate ].
      split; [ discriminate | ].
      intros (_ & _ & _ & o' & Ho' & F). exfalso.
      rewrite Ho in Ho'. injection Ho' as <-.
      rewrite R1 in F. apply Forall_app in F. destruct F as [_ F].
      inversion F; subst. congruence.
  - exists [EvChat req resp]. rewrite S1, S2, S3, S4. cbn [world_of after log List.length].
    split; [ reflexivity | ].
    do 4 (split; [ auto with arith | ]).
    intros r w' E. injection E as <- <-. cbn [Status Score Final_Version Original_Question].
    split; [ | reflexivity ].
    split; [ discriminate | ].
    intros (Hs & _). lia.
Qed.

Lemma attempt_loop_total (d : pydict) (o : string) (score : Z) (justification : string) :
  forall (attempts : list Z) (w : World),
    Forall (fun attempt => dynamic_temp attempt <> None) attempts ->
    exists final status w',
      attempt_loop chat cos_sim cross_predict repr d (PStr o) score justification
        attempts w = Ok (final, status) w'.
Proof.
  induction attempts as [ | attempt attempts IH]; intros w H.
  - cbn [attempt_loop]. unfold ret. eauto.
  - inversion H as [ | a l Ha Hl]; subst.
    destruct (dynamic_temp attempt) as [temp | ] eqn:T; [ | congruence ].
    cbn [attempt_loop]. unfold bind at 1.
    rewrite (rephrase_run _ _ _ _ _ _ T). cbv zeta.
    unfold bind at 1. rewrite validate_strings.
    destruct (accepts cos_sim cross_predict o _).
    + unfold ret. eauto.
    + unfold bind, print, emit. apply IH. exact Hl.
Qed.

Lemma range_temperatures :
  Forall (fun attempt => dynamic_temp attempt <> None) (range MAX_ATTEMPTS).
Proof. repeat constructor; discriminate. Qed.

Lemma run_body_fields (d : pydict) (w w' : World) (r : Result) :
  run_body chat cos_sim cross_predict repr (PDict d) w = Ok (Some r) w' ->
  truthy (dict_get "question" d (PStr "")) = true /\
  Original_Question r = dict_get "question" d (PStr "") /\
  ID r = dict_get "id" d (PStr "?").
Proof.
  destruct (truthy (dict_get "question" d (PStr ""))) eqn:Ht.
  2:{ rewrite (run_body_skip d w Ht). discriminate. }
  rewrite (run_body_scored d w Ht). cbv zeta.
  destruct (_ >? 20).
  - destruct (attempt_loop _ _ _ _ _ _ _ _ _ _) as [[final status] w2 | e w2];
      [ | discriminate ].
    intros [= <- _]. auto.
  - intros [= <- _]. auto.
Qed.

Lemma run_body_text (d : pydict) (s : string) (w : World) :
  dict_lookup "question" d = Some (PStr s) -> s <> "" ->
  exists r w', run_body chat cos_sim cross_predict repr (PDict d) w = Ok (Some r) w'.
Proof.
  intros Hq Hs.
  assert (Ho : dict_get "question" d (PStr "") = PStr s)
    by (rewrite dict_get_lookup, Hq; reflexivity).
  assert (Ht : truthy (dict_get "question" d (PStr "")) = true).
  { rewrite Ho. simpl. destruct (String.eqb_spec s ""); [ contradiction | reflexivity ]. }
  rewrite (run_body_scored d w Ht). cbv zeta. rewrite Ho.
  destruct (_ >? 20); [ | eauto ].
  destruct (attempt_loop_total d s
              (fst (parse_assessment (chat (log w) (score_request repr (PStr s)))))
              (snd (parse_assessment (chat (log w) (score_request repr (PStr s)))))
              (range MAX_ATTEMPTS)
              (after w [EvChat (score_request repr (PStr s))
                          (chat (log w) (score_request repr (PStr s)))])
              range_temperatures)
    as (final & status & w2 & E).
  rewrite E. eauto.
Qed.

(** C10. The [ID] of every record the loop body emits is the value under
    the key [id] of the question record when the key is present, and the
    string [?] when it is absent; and a record whose text is a non-empty
    string yields a result, without an error and without being skipped,
    whether or not it has an id. *)
Theorem result_id_field (d : pydict) (w : World) :
  (forall r w',
      run_body chat cos_sim cross_predict repr (PDict d) w = Ok (Some r) w' ->
      ID r = match dict_lookup "id" d with Some v => v | None => PStr "?" end)
  /\
  (forall s,
      dict_lookup "question" d = Some (PStr s) -> s <> "" ->
      exists r w',
        run_body chat cos_sim cross_predict repr (PDict d) w = Ok (Some r) w' /\
        ID r = match dict_lookup "id" d with Some v => v | None => PStr "?" end).
Proof.
  split.
  - intros r w' E. apply run_body_fields in E. destruct E as (_ & _ & E).
    rewrite E. apply dict_get_lookup.
  - intros s Hq Hs. destruct (run_body_text d s w Hq Hs) as (r & w' & E).
    exists r, w'. split; [ exact E | ].
    apply run_body_fields in E. destruct E as (_ & _ & E).
    rewrite E. apply dict_get_lookup.
Qed.

Lemma run_body_record (q : pyval) (w : World) :
  question_record q ->
  (keeps_text q = false /\
   run_body chat cos_sim cross_predict repr q w = Ok None w)
  \/ (keeps_text q = true /\
      exists r w',
        run_body chat cos_sim cross_predict repr q w = Ok (Some r) w' /\
        result_of q r).
Proof.
  intros (d & -> & [Hq | [s Hq]]).
  - left. unfold keeps_text, text_missing_or_empty. rewrite Hq.
    split; [ reflexivity | ].
    apply run_body_skip. rewrite dict_get_lookup, Hq. reflexivity.
  - destruct (String.eqb_spec s "") as [-> | Hs].
    + left. unfold keeps_text, text_missing_or_empty. rewrite Hq.
      split; [ reflexivity | ].
      apply run_body_skip. rewrite dict_get_lookup, Hq. reflexivity.
    + right. unfold keeps_text, text_missing_or_empty. rewrite Hq.
      split; [ destruct (String.eqb_spec s ""); [ contradiction | reflexivity ] | ].
      destruct (run_body_text d s w Hq Hs) as (r & w' & E).
      exists r, w'. split; [ exact E | ].
      apply run_body_fields in E. destruct E as (_ & E1 & E2).
      exists d. split; [ reflexivity | ].
      rewrite E1, E2, !dict_get_lookup, Hq. auto.
Qed.

Lemma run_loop_records (questions : list pyval) :
  forall (results : list Result) (w : World),
    Forall question_record questions ->
    exists added w',
      run_loop chat cos_sim cross_predict repr questions results w
      = Ok (results ++ added)%list w' /\
      Forall2 result_of (filter keeps_text questions) added.
Proof.
  induction questions as [ | q questions IH]; intros results w H.
  - exists [], w. rewrite app_nil_r. split; [ reflexivity | constructor ].
  - inversion H as [ | q' l Hq Hl]; subst.
    cbn [run_loop filter]. unfold bind.
    destruct (run_body_record q w Hq) as [[K E] | (K & r & w1 & E & A)];
      rewrite E, K.
    + apply IH. exact Hl.
    + destruct (IH (results ++ [r])%list w1 Hl) as (added & w' & E' & F).
      exists (r :: added), w'. rewrite E', <- app_assoc.
      split; [ reflexivity | constructor; assumption ].
Qed.

(** C9 (amended). On a list whose elements are all question records (JSON
    objects whose text, when present, is a string) the loop raises no
    error, skips exactly the records whose text is missing or empty, and
    appends exactly one result for each other record, in the order of the
    list. *)
Theorem run_loop_one_result_per_question (questions : list pyval) (w : World) :
  Forall question_record questions ->
  exists results w',
    run_loop chat cos_sim cross_predict repr questions [] w = Ok results w' /\
    Forall2 result_of (filter keeps_text questions) results.
Proof.
  intros H. destruct (run_loop_records questions [] w H) as (added & w' & E & F).
  exists added, w'. split; assumption.
Qed.

(** *** The whole run *)

(** A document whose text is only white space reaches no model: the text is
    trimmed by [extract_text] and [run] stops on the empty text. *)
Lemma run_blank_document (file_bytes : list Byte.byte) (pages : list page) (w : World) :
  Z.of_nat (List.length file_bytes) <= MAX_PDF_SIZE ->
  fitz_open file_bytes = Some pages ->
  Str.strip (pages_text pages "") = "" ->
  run chat cos_sim cross_predict json_loads fitz_open repr file_bytes w
  = Ok [] (after w [EvPrint (OutExtracted 0)]).
Proof.
  intros Hsize Hopen Hblank. unfold run.
  destruct (Z.gtb_spec (Z.of_nat (List.length file_bytes)) MAX_PDF_SIZE) as [Hgt | _];
    [ lia | ].
  unfold bind at 1. unfold extract_text. rewrite Hopen. cbv zeta.
  rewrite Hblank. reflexivity.
Qed.

(** A document too large is refused before anything is read. *)
Lemma run_oversized_document (file_bytes : list Byte.byte) (w : World) :
  MAX_PDF_SIZE < Z.of_nat (List.length file_bytes) ->
  run chat cos_sim cross_predict json_loads fitz_open repr file_bytes w
  = Ok [] (after w [EvPrint OutPdfTooLarge]).
Proof.
  intros Hsize. unfold run.
  destruct (Z.gtb_spec (Z.of_nat (List.length file_bytes)) MAX_PDF_SIZE) as [_ | Hle];
    [ reflexivity | lia ].
Qed.

(** *** Further properties: text extraction *)

Lemma chats_app (a b : list event) : chats (a ++ b) = (chats a ++ chats b)%list.
Proof.
  induction a as [ | [ | | | | ] a IH]; simpl; congruence.
Qed.

Lemma load_events_app (a b : list event) :
  load_events (a ++ b) = (load_events a ++ load_events b)%list.
Proof.
  induction a as [ | [ | | | | ] a IH]; simpl; congruence.
Qed.

(** X1. [extract_text] never raises, asks no model, and the text it returns
    is trimmed: it has no white space at either end.  When the PDF cannot be
    opened or read the text is empty. *)
Theorem extract_text_trimmed (file_bytes : list Byte.byte) (w : World) :
  exists text w',
    extract_text fitz_open file_bytes w = Ok text w' /\
    Str.strip text = text /\
    chats (log w') = chats (log w) /\
    bi_encoder w' = bi_encoder w /\ cross_encoder w' = cross_encoder w /\
    (fitz_open file_bytes = None -> text = "").
Proof.
  unfold extract_text. destruct (fitz_open file_bytes) as [pages | ].
  - eexists. eexists. split; [ reflexivity | ].
    split; [ apply strip_idempotent | ].
    cbn [log]. rewrite chats_app. cbn [chats]. rewrite app_nil_r.
    repeat split; auto. discriminate.
  - eexists. eexists. split; [ reflexivity | ].
    cbn [log]. rewrite chats_app. cbn [chats]. rewrite app_nil_r.
    repeat split; auto.
Qed.

Lemma pages_text_digital (pages pages' : list page) :
  Forall2 (fun p p' => get_text p = get_text p' /\
                       (50 <= String.length (Str.strip (get_text p)))%nat)
    pages pages' ->
  forall text, pages_text pages text = pages_text pages' text.
Proof.
  induction 1 as [ | p p' pages pages' [Ht Hlen] _ IH]; intros text; [ reflexivity | ].
  cbn [pages_text]. cbv zeta. rewrite <- Ht.
  destruct (Nat.ltb_spec (String.length (Str.strip (get_text p))) 50) as [Hlt | _];
    [ lia | ].
  apply IH.
Qed.

(** X2. OCR is a fallback only: when every page of a document has at least
    50 characters of trimmed digital text, the extracted text does not
    depend on the pixmaps or on what tesseract would read on them. *)
Theorem digital_pages_skip_ocr
    (fitz_open' : list Byte.byte -> option (list page))
    (file_bytes : list Byte.byte) (pages pages' : list page) (w : World) :
  fitz_open file_bytes = Some pages ->
  fitz_open' file_bytes = Some pages' ->
  Forall2 (fun p p' => get_text p = get_text p' /\
                       (50 <= String.length (Str.strip (get_text p)))%nat)
    pages pages' ->
  extract_text fitz_open file_bytes w = extract_text fitz_open' file_bytes w.
Proof.
  intros H H' F. unfold extract_text. rewrite H, H'. cbv zeta.
  rewrite (pages_text_digital pages pages' F ""). reflexivity.
Qed.

Lemma pages_text_unreadable_scans (pages : list page) :
  Forall (fun p => (String.length (Str.strip (get_text p)) < 50)%nat /\
                   12000000 < pix_width p * pix_height p) pages ->
  forall text, exists pad,
    all_space pad = true /\ pages_text pages text = text ++ pad.
Proof.
  induction 1 as [ | p pages [Hlen Hpix] _ IH]; intros text.
  - exists "". split; [ reflexivity | ].
    cbn [pages_text]. rewrite str_app_nil_r. reflexivity.
  - cbn [pages_text]. cbv zeta.
    destruct (Nat.ltb_spec (String.length (Str.strip (get_text p))) 50) as [_ | Hge];
      [ | lia ].
    unfold _ocr_page.
    destruct (Z.gtb_spec (pix_width p * pix_height p) 12000000) as [_ | Hle]; [ | lia ].
    destruct (IH (text ++ "" ++ Str.nl)) as (pad & Hpad & E).
    exists (Str.nl ++ pad). split; [ exact Hpad | ].
    rewrite E. cbn [String.append]. apply str_app_assoc.
Qed.

(** X3. A scanned document all of whose pages have fewer than 50 characters
    of digital text and a pixmap of more than 12,000,000 pixels yields the
    empty text, and [run] returns no result for it without asking any
    model. *)
Theorem oversized_scans_yield_nothing (file_bytes : list Byte.byte)
    (pages : list page) (w : World) :
  Z.of_nat (List.length file_bytes) <= MAX_PDF_SIZE ->
  fitz_open file_bytes = Some pages ->
  Forall (fun p => (String.length (Str.strip (get_text p)) < 50)%nat /\
                   12000000 < pix_width p * pix_height p) pages ->
  extract_text fitz_open file_bytes w = Ok "" (after w [EvPrint (OutExtracted 0)]) /\
  run chat cos_sim cross_predict json_loads fitz_open repr file_bytes w
  = Ok [] (after w [EvPrint (OutExtracted 0)]).
Proof.
  intros Hsize Hopen Hpages.
  destruct (pages_text_unreadable_scans pages Hpages "") as (pad & Hpad & E).
  assert (B : Str.strip (pages_text pages "") = "").
  { rewrite E. cbn [String.append]. apply strip_all_space. exact Hpad. }
  split.
  - unfold extract_text. rewrite Hopen. cbv zeta. rewrite B. reflexivity.
  - apply (run_blank_document file_bytes pages w Hsize Hopen B).
Qed.

Lemma run_unreadable_document (file_bytes : list Byte.byte) (w : World) :
  Z.of_nat (List.length file_bytes) <= MAX_PDF_SIZE ->
  fitz_open file_bytes = None ->
  run chat cos_sim cross_predict json_loads fitz_open repr file_bytes w
  = Ok [] (after w [EvPrint OutErrorOpeningPdf]).
Proof.
  intros Hle H. unfold run.
  destruct (Z.gtb_spec (Z.of_nat (List.length file_bytes)) MAX_PDF_SIZE); [ lia | ].
  unfold bind at 1. unfold extract_text. rewrite H. reflexivity.
Qed.

(** X4. A document that is too large, cannot be read, or has no text but
    white space gives the empty result list, and nothing but a line of
    output happens: no chat request, no encoder loaded. *)
Theorem run_without_text (file_bytes : list Byte.byte) (w : World) :
  MAX_PDF_SIZE < Z.of_nat (List.length file_bytes)
  \/ fitz_open file_bytes = None
  \/ (exists pages, fitz_open file_bytes = Some pages /\
                    Str.strip (pages_text pages "") = "") ->
  exists l,
    run chat cos_sim cross_predict json_loads fitz_open repr file_bytes w
    = Ok [] (after w [EvPrint l]).
Proof.
  intros H.
  destruct (Z.gtb_spec (Z.of_nat (List.length file_bytes)) MAX_PDF_SIZE) as [Hgt | Hle].
  { exists OutPdfTooLarge. apply run_oversized_document. exact Hgt. }
  destruct H as [H | [H | (pages & H & B)]]; [ lia | | ].
  - exists OutErrorOpeningPdf. apply (run_unreadable_document file_bytes w Hle H).
  - exists (OutExtracted 0). apply (run_blank_document file_bytes pages w Hle H B).
Qed.

(** *** Further properties: the gate *)

(** X5. A candidate that differs from the original only by letter case and
    by white space around it is rejected, and no encoder is asked about
    it. *)
Theorem validate_rejects_recased_padded (original candidate pad1 pad2 : string)
    (w : World) :
  Str.lower candidate = Str.lower original ->
  all_space pad1 = true -> all_space pad2 = true ->
  validate cos_sim cross_predict (PStr original) (PStr (pad1 ++ candidate ++ pad2)) w
  = Ok false (mkWorld true true (log w ++ loads w)).
Proof.
  intros Hcase H1 H2. rewrite validate_strings.
  assert (S : same_normalized original (pad1 ++ candidate ++ pad2) = true).
  { unfold same_normalized. rewrite (strip_padded pad1 candidate pad2 H1 H2).
    rewrite <- !strip_lower, Hcase. apply String.eqb_refl. }
  unfold accepts, gate_events. rewrite S. simpl. rewrite app_nil_r. reflexivity.
Qed.

(** *** Further properties: the safe JSON parser *)




Lemma sub_fences_plain (s : string) :
  no_backtick s = true ->
  forall bol t, exists bol', sub_fences bol 0 (s ++ t) = s ++ sub_fences bol' 0 t.
Proof.
  unfold no_backtick, is_backtick.
  induction s as [ | c s IH]; intros H bol t.
  - exists bol. reflexivity.
  - simpl in H. apply andb_prop in H. destruct H as [Hc Hs].
    apply negb_true_iff in Hc.
    destruct (IH Hs (Str.is_newline c) t) as [bol' E].
    exists bol'. cbn [String.append sub_fences].
    unfold fence_at_bol, fence_at_eol. cbn [Str.drop_prefix].
    rewrite (Ascii.eqb_sym "`"%char c), Hc.
    rewrite andb_false_r. rewrite E. reflexivity.
Qed.

Lemma sub_fences_no_backtick (s : string) (bol : bool) :
  no_backtick s = true -> sub_fences bol 0 s = s.
Proof.
  intros H. destruct (sub_fences_plain s H bol "") as [bol' E].
  rewrite str_app_nil_r in E. rewrite E. destruct bol'; apply str_app_nil_r.
Qed.

Lemma lstrip_app_keep (pre x : string) :
  no_leading_space x -> Str.lstrip (pre ++ x) = Str.lstrip pre ++ x.
Proof.
  intros H. induction pre as [ | c pre IH]; simpl.
  - apply lstrip_fixed. exact H.
  - destruct (Str.is_space c); [ exact IH | reflexivity ].
Qed.

Lemma rstrip_app_keep (x post : string) (c : ascii) :
  Str.is_space c = false ->
  Str.rstrip (x ++ String c post) = x ++ String c (Str.rstrip post).
Proof.
  intros Hc. induction x as [ | a x IH]; simpl.
  - destruct (Str.rstrip post); [ rewrite Hc | ]; reflexivity.
  - rewrite IH. destruct (x ++ String c (Str.rstrip post)) eqn:E; [ | reflexivity ].
    destruct x; discriminate.
Qed.

Lemma take_star_any_none (closing : ascii) (post : string) :
  Str.all_chars (fun c => negb (Ascii.eqb c closing)) post = true ->
  Re.take_star Str.any_char (Re.take_lit (String closing "") Re.stop) post = None.
Proof.
  induction post as [ | c post IH]; simpl; intros H; [ reflexivity | ].
  apply andb_prop in H. destruct H as [Hc H]. apply negb_true_iff in Hc.
  rewrite (IH H). unfold Re.take_lit. cbn [Str.drop_prefix].
  rewrite (Ascii.eqb_sym closing c), Hc. reflexivity.
Qed.

Lemma take_star_any_closing (closing : ascii) (s post : string) :
  Str.all_chars (fun c => negb (Ascii.eqb c closing)) post = true ->
  Re.take_star Str.any_char (Re.take_lit (String closing "") Re.stop)
    (s ++ String closing post)
  = Some (s ++ String closing "").
Proof.
  intros H. induction s as [ | a s IH]; cbn [String.append Re.take_star Str.any_char].
  - rewrite (take_star_any_none closing post H).
    unfold Re.take_lit. cbn [Str.drop_prefix]. rewrite Ascii.eqb_refl. reflexivity.
  - rewrite IH. reflexivity.
Qed.

Lemma search_json_skip (pre t : string) :
  opens_nothing pre = true ->
  Re.search json_re (pre ++ t) = Re.search json_re t.
Proof.
  unfold opens_nothing. induction pre as [ | c pre IH]; intros H; [ reflexivity | ].
  simpl in H. apply andb_prop in H. destruct H as [Hc H].
  apply andb_prop in Hc. destruct Hc as [H1 H2].
  apply negb_true_iff in H1, H2.
  cbn [String.append Re.search].
  unfold json_re at 1, Re.alt, Re.take_lit. cbn [Str.drop_prefix].
  rewrite (Ascii.eqb_sym "{"%char c), H1, (Ascii.eqb_sym "["%char c), H2.
  apply IH. exact H.
Qed.

Lemma search_json_span (opening closing : ascii) (pre mid post : string) :
  (opening = "{"%char /\ closing = "}"%char) \/ (opening = "["%char /\ closing = "]"%char) ->
  opens_nothing pre = true ->
  Str.all_chars (fun c => negb (Ascii.eqb c closing)) post = true ->
  Re.search json_re (pre ++ String opening (mid ++ String closing post))
  = Some (String opening (mid ++ String closing "")).
Proof.
  intros Hb Hpre Hpost. rewrite (search_json_skip pre _ Hpre).
  destruct Hb as [[-> ->] | [-> ->]].
  - cbn [Re.search]. unfold json_re, Re.alt, Re.take_lit at 1.
    cbn [Str.drop_prefix Ascii.eqb Bool.eqb].
    rewrite (take_star_any_closing "}" mid post Hpost). reflexivity.
  - cbn [Re.search]. unfold json_re, Re.alt, Re.take_lit at 1.
    cbn [Str.drop_prefix Ascii.eqb Bool.eqb].
    unfold Re.take_lit at 1. cbn [Str.drop_prefix Ascii.eqb Bool.eqb].
    rewrite (take_star_any_closing "]" mid post Hpost). reflexivity.
Qed.

Lemma bracket_not_space (opening closing : ascii) :
  (opening = "{"%char /\ closing = "}"%char) \/ (opening = "["%char /\ closing = "]"%char) ->
  Str.is_space opening = false /\ Str.is_space closing = false /\
  is_backtick opening = false /\ is_backtick closing = false.
Proof. intros [[-> ->] | [-> ->]]; repeat split; reflexivity. Qed.

Lemma strip_span (opening closing : ascii) (pre mid post : string) :
  Str.is_space opening = false -> Str.is_space closing = false ->
  Str.strip (pre ++ String opening (mid ++ String closing post))
  = Str.lstrip pre ++ String opening (mid ++ String closing (Str.rstrip post)).
Proof.
  intros Ho Hc. unfold Str.strip.
  rewrite (lstrip_app_keep pre (String opening (mid ++ String closing post)) Ho).
  change (String opening (mid ++ String closing post))
    with (String opening mid ++ String closing post).
  rewrite <- str_app_assoc, (rstrip_app_keep _ post closing Hc), str_app_assoc.
  reflexivity.
Qed.

(** X7. Prose around the JSON value is ignored: when a response without
    backticks holds an object (or an array), with no brace or bracket opened
    before it and no closing brace (or bracket) after it, the safe parser
    returns what [json.loads] makes of the object (or array) alone. *)
Theorem safe_json_load_ignores_prose (opening closing : ascii)
    (pre mid post : string) :
  (opening = "{"%char /\ closing = "}"%char) \/ (opening = "["%char /\ closing = "]"%char) ->
  opens_nothing pre = true ->
  Str.all_chars (fun c => negb (Ascii.eqb c closing)) post = true ->
  no_backtick (pre ++ String opening (mid ++ String closing post)) = true ->
  _safe_json_load json_loads (pre ++ String opening (mid ++ String closing post))
  = json_loads (String opening (mid ++ String closing "")).
Proof.
  intros Hb Hpre Hpost Hplain.
  destruct (bracket_not_space opening closing Hb) as (Ho & Hc & _ & _).
  unfold _safe_json_load.
  rewrite (sub_fences_no_backtick _ true (all_chars_strip _ _ Hplain)).
  rewrite strip_idempotent, (strip_span opening closing pre mid post Ho Hc).
  rewrite (search_json_span opening closing _ mid _ Hb).
  - reflexivity.
  - apply all_chars_lstrip. exact Hpre.
  - apply all_chars_rstrip. exact Hpost.
Qed.

Lemma sub_fences_fenced (body : string) :
  no_backtick body = true ->
  sub_fences true 0 (fenced body) = Str.nl ++ body ++ Str.nl.
Proof.
  intros H. unfold fenced.
  change (sub_fences true 0 ("```json" ++ Str.nl ++ body ++ Str.nl ++ "```"))
    with (String "010"%char (sub_fences true 0 (body ++ Str.nl ++ "```"))).
  destruct (sub_fences_plain body H true (Str.nl ++ "```")) as [bol' E].
  rewrite E. destruct bol'; reflexivity.
Qed.

(** X8. A JSON object or array that a model wraps in a [```json] code fence
    is parsed as if it stood alone: the fence lines are removed and
    [json.loads] receives the value itself. *)
Theorem safe_json_load_fenced (opening closing : ascii) (mid : string) :
  (opening = "{"%char /\ closing = "}"%char) \/ (opening = "["%char /\ closing = "]"%char) ->
  no_backtick mid = true ->
  _safe_json_load json_loads (fenced (String opening (mid ++ String closing "")))
  = json_loads (String opening (mid ++ String closing "")).
Proof.
  intros Hb Hmid.
  destruct (bracket_not_space opening closing Hb) as (Ho & Hc & Bo & Bc).
  set (body := String opening (mid ++ String closing "")).
  assert (Hbody : no_backtick body = true).
  { unfold body, no_backtick. cbn [Str.all_chars]. rewrite all_chars_app.
    cbn [Str.all_chars]. fold (no_backtick mid). rewrite Hmid, Bo, Bc. reflexivity. }
  assert (S0 : Str.strip (fenced body) = fenced body).
  { unfold Str.strip.
    assert (L : Str.lstrip (fenced body) = fenced body) by reflexivity.
    rewrite L.
    assert (F : fenced body = ("```json" ++ Str.nl ++ body ++ Str.nl ++ "``") ++ "`").
    { unfold fenced. rewrite !str_app_assoc. reflexivity. }
    rewrite F. apply rstrip_ends_outside. reflexivity. }
  assert (S1 : Str.strip (Str.nl ++ body ++ Str.nl) = body).
  { rewrite (strip_padded Str.nl body Str.nl eq_refl eq_refl).
    exact (strip_span opening closing "" mid "" Ho Hc). }
  unfold _safe_json_load.
  rewrite S0, (sub_fences_fenced body Hbody), S1.
  unfold body.
  pose proof (search_json_span opening closing "" mid "" Hb eq_refl eq_refl) as S2.
  cbn [String.append] in S2. rewrite S2. reflexivity.
Qed.

(** *** Further properties: the scorer *)














(** X10. Whatever the scoring model answers, the justification the scorer
    returns is a single line with no white space at either end. *)
Theorem justification_one_trimmed_line (question : pyval) (w : World) :
  exists score justification w',
    score_question chat repr question w = Ok (score, justification) w' /\
    Str.all_chars Str.not_newline justification = true /\
    Str.strip justification = justification.
Proof.
  rewrite score_question_run. cbv zeta.
  destruct (parse_assessment_cases (chat (log w) (score_request repr question)))
    as [E | (digits & group1 & _ & Hj & E)]; rewrite E.
  - eexists. eexists. eexists. split; [ reflexivity | ]. split; reflexivity.
  - eexists. eexists. eexists. split; [ reflexivity | ].
    split; [ | apply strip_idempotent ].
    apply all_chars_strip.
    apply search_found in Hj. destruct Hj as [s1 Hj].
    unfold justification_re in Hj.
    apply skip_lit_found in Hj. destruct Hj as [s2 Hj].
    apply skip_star_found in Hj. destruct Hj as [s3 Hj].
    apply (take_plus_stop_chars _ _ _ Hj).
Qed.

(** *** Further properties: the remediation loop *)

Lemma candidates_trimmed (evs : list event) :
  Forall (fun c => Str.strip c = c) (candidates evs).
Proof.
  induction evs as [ | [r resp | | | | ] evs IH]; simpl; auto.
  destruct (String.eqb (model r) REPHRASE_MODEL); auto.
  constructor; [ apply strip_idempotent | exact IH ].
Qed.

(** X11. A record with the status [Rephrased] has a score above 20, and its
    final version is a candidate that the gate accepted: a trimmed string
    that differs from the trimmed original by more than letter case. *)
Theorem rephrased_record (q : pyval) (w w' : World) (r : Result) :
  run_body chat cos_sim cross_predict repr q w = Ok (Some r) w' ->
  Status r = "Rephrased" ->
  20 < Score r /\
  exists o c,
    Original_Question r = PStr o /\ Final_Version r = PStr c /\
    Str.strip c = c /\
    accepts cos_sim cross_predict o c = true /\
    Str.lower c <> Str.lower (Str.strip o).
Proof.
  destruct q as [ | | | | | | d]; try discriminate.
  destruct (truthy (dict_get "question" d (PStr ""))) eqn:Ht.
  2:{ rewrite (run_body_skip d w Ht). discriminate. }
  rewrite (run_body_scored d w Ht). cbv zeta.
  set (original := dict_get "question" d (PStr "")).
  set (resp := chat (log w) (score_request repr original)).
  destruct (Z.gtb_spec (fst (parse_assessment resp)) 20) as [Hgt | Hle].
  2:{ intros [= <- _]. discriminate. }
  destruct (attempt_loop_spec d original (fst (parse_assessment resp))
              (snd (parse_assessment resp)) (range MAX_ATTEMPTS)
              (after w [EvChat (score_request repr original) resp]))
    as (evs & _ & _ & _ & _ & _ & R).
  destruct (attempt_loop _ _ _ _ _ _ _ _ _ _) as [[final status] w2 | e w2];
    [ | discriminate ].
  destruct (R final status w2 eq_refl)
    as [(-> & _) | (-> & o & c & rej & Ho & -> & R1 & _ & R3 & _)].
  - intros [= <- _]. discriminate.
  - intros [= <- _] _. cbn [Score Original_Question Final_Version].
    split; [ lia | ]. exists o, c. split; [ exact Ho | ]. split; [ reflexivity | ].
    assert (T : Str.strip c = c).
    { pose proof (candidates_trimmed evs) as F. rewrite R1 in F.
      apply Forall_app in F. destruct F as [_ F]. inversion F; auto. }
    split; [ exact T | ]. split; [ exact R3 | ].
    unfold accepts in R3. apply andb_prop in R3. destruct R3 as [R3 _].
    apply andb_prop in R3. destruct R3 as [R3 _].
    unfold same_normalized in R3. rewrite T in R3.
    apply negb_true_iff in R3. apply String.eqb_neq in R3. congruence.
Qed.

(** X12. The score decides the status: a record scored at most 20 is
    [Original Kept]; a record scored above 20 is [Rephrased] or
    [Manual Review Required]; and unless it is [Rephrased] its final
    version is the original text. *)
Theorem status_by_score (q : pyval) (w w' : World) (r : Result) :
  run_body chat cos_sim cross_predict repr q w = Ok (Some r) w' ->
  truthy (Original_Question r) = true /\
  ((Score r <= 20 /\ Status r = "Original Kept" /\
    Final_Version r = Original_Question r)
   \/ (20 < Score r /\ Status r = "Rephrased")
   \/ (20 < Score r /\ Status r = "Manual Review Required" /\
       Final_Version r = Original_Question r)).
Proof.
  destruct q as [ | | | | | | d]; try discriminate.
  destruct (truthy (dict_get "question" d (PStr ""))) eqn:Ht.
  2:{ rewrite (run_body_skip d w Ht). discriminate. }
  rewrite (run_body_scored d w Ht). cbv zeta.
  set (original := dict_get "question" d (PStr "")) in *.
  set (resp := chat (log w) (score_request repr original)).
  destruct (Z.gtb_spec (fst (parse_assessment resp)) 20) as [Hgt | Hle].
  2:{ intros [= <- _]. cbn [Score Status Original_Question Final_Version]. auto. }
  destruct (attempt_loop_spec d original (fst (parse_assessment resp))
              (snd (parse_assessment resp)) (range MAX_ATTEMPTS)
              (after w [EvChat (score_request repr original) resp]))
    as (evs & _ & _ & _ & _ & _ & R).
  destruct (attempt_loop _ _ _ _ _ _ _ _ _ _) as [[final status] w2 | e w2];
    [ | discriminate ].
  destruct (R final status w2 eq_refl) as [(-> & -> & _) | (-> & _)];
    intros [= <- _]; cbn [Score Status Original_Question Final_Version];
    (split; [ exact Ht | ]); right; [ right | left ]; auto.
Qed.

Lemma run_body_none (d : pydict) (w w' : World) :
  run_body chat cos_sim cross_predict repr (PDict d) w = Ok None w' ->
  truthy (dict_get "question" d (PStr "")) = false /\ w' = w.
Proof.
  destruct (truthy (dict_get "question" d (PStr ""))) eqn:Ht.
  - rewrite (run_body_scored d w Ht). cbv zeta.
    destruct (_ >? 20); [ | discriminate ].
    destruct (attempt_loop _ _ _ _ _ _ _ _ _ _) as [[final status] w2 | e w2];
      discriminate.
  - rewrite (run_body_skip d w Ht). intros [= <-]. auto.
Qed.

(** X13. The loop body skips a question record exactly when its text is
    missing or false in the sense of Python (the empty string, [None],
    [False], a zero, an empty list or object); a skipped record leaves the
    world untouched. *)
Theorem skipped_iff_falsy_text (d : pydict) (w w' : World) :
  run_body chat cos_sim cross_predict repr (PDict d) w = Ok None w'
  <-> truthy (dict_get "question" d (PStr "")) = false /\ w' = w.
Proof.
  split.
  - apply run_body_none.
  - intros [Ht ->]. apply run_body_skip. exact Ht.
Qed.

Lemma first_temperature : dynamic_temp 0 = Some F64.lit_0_2.
Proof. reflexivity. Qed.

(** X14. A question record whose text is not a string but counts as true
    (a number, say) is scored like any other; when its score is above 20 the
    first candidate is asked for, both encoders are loaded if need be, and
    the gate then raises [AttributeError] before any encoder is called. *)
Theorem non_string_text_raises (d : pydict) (original : pyval) (w : World)
    (score : Z) (justification : string) :
  dict_get "question" d (PStr "") = original ->
  truthy original = true ->
  is_str original = false ->
  parse_assessment (chat (log w) (score_request repr original)) = (score, justification) ->
  20 < score ->
  exists w' evs,
    run_body chat cos_sim cross_predict repr (PDict d) w = Raise AttributeError w' /\
    log w' = (log w ++ evs)%list /\
    chats evs = [score_request repr original;
                 rephrase_request repr original justification 0 F64.lit_0_2] /\
    load_events evs = loads w /\
    cos_sim_calls evs = [] /\ predict_calls evs = [].
Proof.
  intros Ho Ht Hs Hp Hgt. subst original.
  rewrite (run_body_scored d w Ht). cbv zeta. rewrite Hp. cbn [fst snd].
  destruct (Z.gtb_spec score 20) as [_ | Hle]; [ | lia ].
  set (original := dict_get "question" d (PStr "")) in *.
  set (req := score_request repr original).
  set (resp := chat (log w) req).
  cbn [range MAX_ATTEMPTS seq map attempt_loop]. unfold bind at 1.
  rewrite (rephrase_run _ _ _ _ _ _ first_temperature). cbv zeta.
  set (req2 := rephrase_request repr original justification 0 F64.lit_0_2).
  set (resp2 := chat (log (after w [EvChat req resp])) req2).
  unfold bind at 1.
  assert (V : validate cos_sim cross_predict original (PStr (Str.strip resp2))
                (after (after w [EvChat req resp]) [EvChat req2 resp2])
              = Raise AttributeError
                  (mkWorld true true
                     (log (after (after w [EvChat req resp]) [EvChat req2 resp2])
                      ++ loads w))).
  { pose proof (load_encoders_run (after (after w [EvChat req resp]) [EvChat req2 resp2]))
      as L.
    unfold validate. unfold bind in *.
    destruct (load_bi_encoder _) as [[] w1 | e w1]; [ | discriminate ].
    rewrite L. destruct original; try discriminate; reflexivity. }
  rewrite V.
  eexists. exists ([EvChat req resp; EvChat req2 resp2] ++ loads w)%list.
  split; [ reflexivity | ].
  split; [ cbn [log after]; rewrite <- !app_assoc; reflexivity | ].
  destruct (loads_silent w) as (_ & _ & L3 & L4).
  rewrite chats_app, load_events_app, cos_sim_calls_app, predict_calls_app, L3, L4.
  cbn [chats load_events cos_sim_calls predict_calls app].
  assert (C : chats (loads w) = [] /\ load_events (loads w) = loads w)
    by (unfold loads; destruct (bi_encoder w), (cross_encoder w); split; reflexivity).
  destruct C as [-> ->]. repeat split; reflexivity.
Qed.

(** X15. The loop does not survive an element that is not an object: when
    the records before it are well formed, the loop raises [AttributeError]
    at that element, whatever comes after it, and so returns no result
    list. *)
Theorem stray_element_raises (before : list pyval) (q : pyval)
    (rest : list pyval) :
  Forall question_record before ->
  (forall d, q <> PDict d) ->
  forall (results : list Result) (w : World),
  exists w',
    run_loop chat cos_sim cross_predict repr (before ++ q :: rest) results w
    = Raise AttributeError w'.
Proof.
  intros Hb Hq. induction Hb as [ | q0 before H0 _ IH]; intros results w.
  - exists w. cbn [app run_loop]. unfold bind.
    destruct q; try reflexivity. exfalso. eapply Hq. reflexivity.
  - cbn [app run_loop]. unfold bind.
    destruct (run_body_record q0 w H0) as [[_ E] | (_ & r & w1 & E & _)]; rewrite E.
    + apply IH.
    + apply IH.
Qed.

(** *** Further properties: requests and encoder loading over a whole loop *)

Lemma leads_to_refl (w : World) : leads_to w w [].
Proof. split; [ symmetry; apply app_nil_r | left; auto ]. Qed.

Lemma loads_same_flags (w w' : World) :
  bi_encoder w' = bi_encoder w -> cross_encoder w' = cross_encoder w ->
  loads w' = loads w.
Proof. unfold loads. intros -> ->. reflexivity. Qed.

Lemma leads_to_trans (w w1 w2 : World) (e1 e2 : list event) :
  leads_to w w1 e1 -> leads_to w1 w2 e2 -> leads_to w w2 (e1 ++ e2).
Proof.
  intros [L1 F1] [L2 F2]. split.
  - rewrite L2, L1, app_assoc. reflexivity.
  - rewrite load_events_app.
    destruct F1 as [(A1 & B1 & C1) | (A1 & B1 & C1)];
      destruct F2 as [(A2 & B2 & C2) | (A2 & B2 & C2)].
    + left. rewrite A1, A2. repeat split; congruence.
    + right. rewrite A1, A2, (loads_same_flags w w1 B1 C1). auto.
    + right. rewrite A1, A2, app_nil_r. repeat split; congruence.
    + right. rewrite A1, A2. unfold loads at 2. rewrite B1, C1, app_nil_r. auto.
Qed.

Lemma leads_to_after (w : World) (evs : list event) :
  load_events evs = [] -> leads_to w (after w evs) evs.
Proof. intros H. split; [ reflexivity | left; auto ]. Qed.

Lemma validate_leads_to (original candidate : pyval) (w : World) :
  exists evs,
    leads_to w (world_of (validate cos_sim cross_predict original candidate w)) evs /\
    chats evs = [].
Proof.
  assert (LL : load_events (loads w) = loads w /\ chats (loads w) = [])
    by (unfold loads; destruct (bi_encoder w), (cross_encoder w); split; reflexivity).
  destruct LL as [LL LC].
  assert (quiet : forall o : outcome bool,
            world_of o = mkWorld true true (log w ++ loads w) ->
            exists evs, leads_to w (world_of o) evs /\ chats evs = []).
  { intros o ->. exists (loads w). split; [ | exact LC ].
    split; [ reflexivity | right; auto ]. }
  pose proof (load_encoders_run w) as L.
  destruct original as [ | | | | o | | ];
    try (apply quiet; unfold validate, bind in *;
         destruct (load_bi_encoder w) as [[] w1 | e w1]; [ | discriminate ];
         rewrite L; reflexivity).
  destruct candidate as [ | | | | c | | ];
    try (apply quiet; unfold validate, bind in *;
         destruct (load_bi_encoder w) as [[] w1 | e w1]; [ | discriminate ];
         rewrite L; reflexivity).
  rewrite validate_strings. exists (loads w ++ gate_events cos_sim o c)%list.
  assert (G : load_events (gate_events cos_sim o c) = [] /\
              chats (gate_events cos_sim o c) = []).
  { unfold gate_events. destruct (same_normalized o c); [ auto | ].
    destruct (F64.ltb _ _); auto. }
  destruct G as [G1 G2].
  rewrite chats_app, LC, G2. split; [ | reflexivity ].
  split; [ reflexivity | right ].
  rewrite load_events_app, LL, G1, app_nil_r. auto.
Qed.

Lemma attempt_loop_leads_to (d : pydict) (original : pyval) (score : Z)
    (justification : string) :
  forall (attempts : list Z) (w : World),
  exists evs,
    leads_to w (world_of (attempt_loop chat cos_sim cross_predict repr d original
                            score justification attempts w)) evs /\
    (List.length (chats evs) <= List.length attempts)%nat.
Proof.
  induction attempts as [ | attempt attempts IH]; intros w.
  - exists []. split; [ apply leads_to_refl | apply Nat.le_refl ].
  - remember (attempt_loop chat cos_sim cross_predict repr d original score
                justification (attempt :: attempts) w) as out eqn:O.
    cbn [attempt_loop] in O. unfold bind at 1 in O.
    destruct (dynamic_temp attempt) as [temp | ] eqn:T.
    2:{ unfold rephrase in O. rewrite T in O. unfold raise in O. subst out.
        exists []. split; [ apply leads_to_refl | apply Nat.le_0_l ]. }
    rewrite (rephrase_run _ _ _ _ _ _ T) in O. cbv zeta in O.
    set (req := rephrase_request repr original justification attempt temp) in *.
    set (resp := chat (log w) req) in *.
    set (w1 := after w [EvChat req resp]) in *.
    assert (S1 : leads_to w w1 [EvChat req resp]) by (apply leads_to_after; reflexivity).
    destruct (validate_leads_to original (PStr (Str.strip resp)) w1) as (ev & S2 & C2).
    unfold bind at 1 in O.
    destruct (validate cos_sim cross_predict original (PStr (Str.strip resp)) w1)
      as [ok w2 | e w2]; cbn [world_of] in S2.
    + destruct ok.
      * unfold ret in O. subst out. cbn [world_of].
        exists ([EvChat req resp] ++ ev)%list.
        split; [ apply (leads_to_trans _ _ _ _ _ S1 S2) | ].
        rewrite chats_app, C2. simpl. lia.
      * unfold bind at 1 in O. unfold print, emit in O.
        set (line := EvPrint (OutAttemptFailed (attempt + 1) (dict_get "id" d PNone))) in *.
        assert (S3 : leads_to w2 (after w2 [line]) [line])
          by (apply leads_to_after; reflexivity).
        destruct (IH (after w2 [line])) as (evs & S4 & C4).
        subst out. unfold after in S4, S3, C4 |- *.
        exists ([EvChat req resp] ++ ev ++ [line] ++ evs)%list.
        split.
        -- apply (leads_to_trans _ _ _ _ _ S1).
           apply (leads_to_trans _ _ _ _ _ S2).
           apply (leads_to_trans _ _ _ _ _ S3 S4).
        -- rewrite !chats_app, C2. cbn [chats line app List.length]. lia.
    + subst out. cbn [world_of].
      exists ([EvChat req resp] ++ ev)%list.
      split; [ apply (leads_to_trans _ _ _ _ _ S1 S2) | ].
      rewrite chats_app, C2. simpl. lia.
Qed.

Lemma run_body_leads_to (q : pyval) (w : World) :
  exists evs,
    leads_to w (world_of (run_body chat cos_sim cross_predict repr q w)) evs /\
    (List.length (chats evs) <= 1 + MAX_ATTEMPTS)%nat.
Proof.
  assert (quiet : forall o : outcome (option Result), world_of o = w ->
            exists evs, leads_to w (world_of o) evs /\
                        (List.length (chats evs) <= 1 + MAX_ATTEMPTS)%nat).
  { intros o ->. exists []. split; [ apply leads_to_refl | apply Nat.le_0_l ]. }
  destruct q as [ | | | | | | d]; try (apply quiet; reflexivity).
  destruct (truthy (dict_get "question" d (PStr ""))) eqn:Ht.
  2:{ rewrite (run_body_skip d w Ht). apply quiet. reflexivity. }
  rewrite (run_body_scored d w Ht). cbv zeta.
  set (original := dict_get "question" d (PStr "")).
  set (req := score_request repr original).
  set (resp := chat (log w) req).
  assert (S1 : leads_to w (after w [EvChat req resp]) [EvChat req resp])
    by (apply leads_to_after; reflexivity).
  destruct (_ >? 20).
  - destruct (attempt_loop_leads_to d original (fst (parse_assessment resp))
                (snd (parse_assessment resp)) (range MAX_ATTEMPTS)
                (after w [EvChat req resp])) as (evs & S2 & C2).
    exists ([EvChat req resp] ++ evs)%list. split.
    + destruct (attempt_loop _ _ _ _ _ _ _ _ _ _) as [[final status] w2 | e w2];
        apply (leads_to_trans _ _ _ _ _ S1 S2).
    + rewrite chats_app. cbn [chats app List.length].
      change (List.length (range MAX_ATTEMPTS)) with MAX_ATTEMPTS in C2. lia.
  - exists [EvChat req resp]. split; [ exact S1 | ]. simpl. lia.
Qed.

Lemma run_loop_leads_to (questions : list pyval) :
  forall (results : list Result) (w : World),
  exists evs,
    leads_to w (world_of (run_loop chat cos_sim cross_predict repr questions results w))
      evs /\
    (List.length (chats evs) <= (1 + MAX_ATTEMPTS) * List.length questions)%nat.
Proof.
  induction questions as [ | q questions IH]; intros results w.
  - exists []. split; [ apply leads_to_refl | apply Nat.le_0_l ].
  - cbn [run_loop]. unfold bind.
    destruct (run_body_leads_to q w) as (e1 & S1 & C1).
    destruct (run_body chat cos_sim cross_predict repr q w) as [[r | ] w1 | e w1];
      cbn [world_of] in S1.
    + destruct (IH (results ++ [r])%list w1) as (e2 & S2 & C2).
      exists (e1 ++ e2)%list. split; [ apply (leads_to_trans _ _ _ _ _ S1 S2) | ].
      rewrite chats_app, length_app. cbn [List.length]. lia.
    + destruct (IH results w1) as (e2 & S2 & C2).
      exists (e1 ++ e2)%list. split; [ apply (leads_to_trans _ _ _ _ _ S1 S2) | ].
      rewrite chats_app, length_app. cbn [List.length]. lia.
    + exists e1. split; [ exact S1 | ]. cbn [List.length]. lia.
Qed.

Lemma get_questions_run (text : string) (w : World) :
  text <> "" ->
  exists questions,
    get_questions chat json_loads text w
    = Ok questions
         (after w [EvChat (extract_request text) (chat (log w) (extract_request text))]).
Proof.
  intros N. rewrite (get_questions_nonempty _ _ N). cbv zeta.
  unfold bind, chat_create. cbv zeta.
  destruct (_safe_json_load json_loads (chat (log w) (extract_request text)))
    as [[ | | | | | l | raw] | ]; try (eexists; reflexivity).
  destruct (first_list_under ["questions"; "exam_questions"] raw);
    [ eexists; reflexivity | ].
  destruct (forallb is_str (dict_values raw)); eexists; reflexivity.
Qed.

Lemma run_with_text (file_bytes : list Byte.byte) (pages : list page) (w : World) :
  Z.of_nat (List.length file_bytes) <= MAX_PDF_SIZE ->
  fitz_open file_bytes = Some pages ->
  Str.strip (pages_text pages "") <> "" ->
  let text := Str.strip (pages_text pages "") in
  let w1 := after w [EvPrint (OutExtracted (String.length text))] in
  exists questions,
    get_questions chat json_loads text w1
    = Ok questions
         (after w1 [EvChat (extract_request text) (chat (log w1) (extract_request text))]) /\
    run chat cos_sim cross_predict json_loads fitz_open repr file_bytes w
    = run_loop chat cos_sim cross_predict repr questions []
        (after (after w1 [EvChat (extract_request text)
                            (chat (log w1) (extract_request text))])
           [EvPrint (OutFound (List.length questions))]).
Proof.
  intros Hsize Hopen Htext text w1.
  destruct (get_questions_run text w1 Htext) as [questions G].
  exists questions. split; [ exact G | ].
  unfold run.
  destruct (Z.gtb_spec (Z.of_nat (List.length file_bytes)) MAX_PDF_SIZE) as [Hgt | _];
    [ lia | ].
  unfold bind at 1. unfold extract_text. rewrite Hopen. cbv zeta.
  fold text. unfold bind at 1, print, emit, ret. cbn [bi_encoder cross_encoder log].
  fold (after w [EvPrint (OutExtracted (String.length text))]). fold w1.
  destruct (String.eqb_spec text "") as [E | _]; [ contradiction | ].
  unfold bind at 1. rewrite G. reflexivity.
Qed.


(** X17. Over a whole run each encoder is loaded at most once, and only if
    it was not loaded before: the loadings in the log of a run are none, or
    exactly those of the encoders missing at the start, in which case both
    are set at the end; encoders already loaded are never loaded again. *)
Theorem encoders_loaded_once (file_bytes : list Byte.byte) (w : World) :
  exists evs,
    leads_to w (world_of (run chat cos_sim cross_predict json_loads fitz_open repr
                            file_bytes w)) evs /\
    (bi_encoder w = true -> cross_encoder w = true -> load_events evs = []).
Proof.
  assert (done : forall evs,
            leads_to w (world_of (run chat cos_sim cross_predict json_loads fitz_open
                                    repr file_bytes w)) evs ->
            exists evs,
              leads_to w (world_of (run chat cos_sim cross_predict json_loads fitz_open
                                      repr file_bytes w)) evs /\
              (bi_encoder w = true -> cross_encoder w = true -> load_events evs = [])).
  { intros evs H. exists evs. split; [ exact H | ].
    intros Hb Hc. destruct H as [_ [(A & _) | (A & _)]]; [ exact A | ].
    rewrite A. unfold loads. rewrite Hb, Hc. reflexivity. }
  destruct (Z.gtb_spec (Z.of_nat (List.length file_bytes)) MAX_PDF_SIZE) as [Hgt | Hle].
  { rewrite (run_oversized_document file_bytes w Hgt) in *.
    apply (done [EvPrint OutPdfTooLarge]). apply leads_to_after. reflexivity. }
  destruct (fitz_open file_bytes) as [pages | ] eqn:Hopen.
  2:{ rewrite (run_unreadable_document file_bytes w Hle Hopen) in *.
      apply (done [EvPrint OutErrorOpeningPdf]). apply leads_to_after. reflexivity. }
  destruct (String.eqb_spec (Str.strip (pages_text pages "")) "") as [B | N].
  { rewrite (run_blank_document file_bytes pages w Hle Hopen B) in *.
    apply (done [EvPrint (OutExtracted 0)]). apply leads_to_after. reflexivity. }
  destruct (run_with_text file_bytes pages w Hle Hopen N) as (questions & _ & E).
  cbv zeta in E. rewrite E in *.
  set (text := Str.strip (pages_text pages "")) in *.
  set (e0 := [EvPrint (OutExtracted (String.length text))]) in *.
  set (e1 := [EvChat (extract_request text)
                (chat (log (after w e0)) (extract_request text))]) in *.
  set (e2 := [EvPrint (OutFound (List.length questions))]) in *.
  destruct (run_loop_leads_to questions [] (after (after (after w e0) e1) e2))
    as (evs & S & _).
  apply (done (e0 ++ e1 ++ e2 ++ evs)%list).
  apply (leads_to_trans w (after w e0)); [ apply leads_to_after; reflexivity | ].
  apply (leads_to_trans _ (after (after w e0) e1)); [ apply leads_to_after; reflexivity | ].
  apply (leads_to_trans _ (after (after (after w e0) e1) e2));
    [ apply leads_to_after; reflexivity | exact S ].
Qed.

(** X18. End to end: when the document has text and the extractor reads a
    list of question records off the model's response, [run] returns,
    without an error, one result for each record with a non-empty text, in
    the order of the list, each with the text and the id of its record. *)
Theorem run_on_question_records (file_bytes : list Byte.byte) (pages : list page)
    (questions : list pyval) (w w1 : World) :
  Z.of_nat (List.length file_bytes) <= MAX_PDF_SIZE ->
  fitz_open file_bytes = Some pages ->
  Str.strip (pages_text pages "") <> "" ->
  get_questions chat json_loads (Str.strip (pages_text pages ""))
    (after w [EvPrint (OutExtracted (String.length (Str.strip (pages_text pages ""))))])
  = Ok questions w1 ->
  Forall question_record questions ->
  exists results w',
    run chat cos_sim cross_predict json_loads fitz_open repr file_bytes w
    = Ok results w' /\
    Forall2 result_of (filter keeps_text questions) results.
Proof.
  intros Hsize Hopen Htext G Hrec.
  destruct (run_with_text file_bytes pages w Hsize Hopen Htext) as (qs & G' & E).
  cbv zeta in G', E. rewrite G in G'. injection G' as <- _.
  rewrite E.
  match goal with
  | |- context [run_loop _ _ _ _ questions [] ?w0] =>
      destruct (run_loop_records questions [] w0 Hrec) as (added & w' & E' & F)
  end.
  exists added, w'. split; [ exact E' | exact F ].
Qed.

Lemma run_loop_completed (questions : list pyval) :
  forall (results final : list Result) (w w' : World),
    run_loop chat cos_sim cross_predict repr questions results w = Ok final w' ->
    exists added,
      final = (results ++ added)%list /\
      Forall2 carries (filter has_text questions) added /\
      Forall (fun q => exists d, q = PDict d) questions.
Proof.
  induction questions as [ | q questions IH]; intros results final w w' H.
  - injection H as <- _. exists []. rewrite app_nil_r. repeat split; constructor.
  - cbn [run_loop] in H. unfold bind in H.
    destruct (run_body chat cos_sim cross_predict repr q w) as [[r | ] w1 | e w1] eqn:B;
      [ | | discriminate ].
    + destruct q as [ | | | | | | d]; try discriminate.
      destruct (run_body_fields d w w1 r B) as (Ht & Ho & Hi).
      destruct (IH _ _ _ _ H) as (added & -> & F & A).
      exists (r :: added). rewrite <- app_assoc. split; [ reflexivity | ].
      cbn [filter has_text]. rewrite Ht.
      split; [ constructor; [ exists d; auto | exact F ] | ].
      constructor; [ eauto | exact A ].
    + destruct q as [ | | | | | | d]; try discriminate.
      apply run_body_none in B. destruct B as [Ht _].
      destruct (IH _ _ _ _ H) as (added & -> & F & A).
      exists added. split; [ reflexivity | ].
      cbn [filter has_text]. rewrite Ht.
      split; [ exact F | ]. constructor; [ eauto | exact A ].
Qed.

(** X19. Whenever the loop completes, on any list at all, every element of
    the list was an object, the results given at the start are kept in
    front, and the results added are, in order, one for each object whose
    text counts as true, with that text and that id. *)
Theorem completed_loop_results (questions : list pyval)
    (results final : list Result) (w w' : World) :
  run_loop chat cos_sim cross_predict repr questions results w = Ok final w' ->
  exists added,
    final = (results ++ added)%list /\
    Forall2 carries (filter has_text questions) added /\
    Forall (fun q => exists d, q = PDict d) questions.
Proof. apply run_loop_completed. Qed.

(** X20. The verdict of the gate on two strings does not depend on the
    world it is asked in, and asking again right away gives the same
    verdict, loads no encoder and makes the same encoder calls. *)
Theorem validate_verdict_stable (original candidate : string) (w1 w2 : World) :
  exists verdict w1' w2' w1'',
    validate cos_sim cross_predict (PStr original) (PStr candidate) w1 = Ok verdict w1' /\
    validate cos_sim cross_predict (PStr original) (PStr candidate) w2 = Ok verdict w2' /\
    validate cos_sim cross_predict (PStr original) (PStr candidate) w1' = Ok verdict w1'' /\
    log w1'' = (log w1' ++ gate_events cos_sim original candidate)%list /\
    load_events (gate_events cos_sim original candidate) = [].
Proof.
  rewrite !validate_strings.
  eexists. eexists. eexists. eexists.
  split; [ reflexivity | ]. split; [ reflexivity | ].
  rewrite validate_strings. split; [ reflexivity | ].
  split; [ reflexivity | ].
  unfold gate_events. destruct (same_normalized original candidate); [ reflexivity | ].
  destruct (F64.ltb _ _); reflexivity.
Qed.

End Properties.

(** ** The model on concrete inputs *)

Module Scenario.

Import Sample.

(** C1, witness: a question scored 10. *)
Lemma clear_question_kept_witness :
  (dict_get "question" record_2_plus_2 (PStr "") = question /\
   truthy question = true /\
   score_question (scripted [clear_answer]) repr question w0
   = Ok (10, "Clear.") (scored clear_answer) /\
   10 <= 20)
  /\
  (run_body (scripted [clear_answer]) similar similar repr (PDict record_2_plus_2) w0
   = Ok (Some (mkResult (dict_get "id" record_2_plus_2 (PStr "?")) question 10 "Clear."
                 question "Original Kept")) (scored clear_answer)
   /\ scored clear_answer
      = after w0 [EvChat (score_request repr question)
                    (scripted [clear_answer] (log w0) (score_request repr question))]
   /\ candidates [EvChat (score_request repr question)
                    (scripted [clear_answer] (log w0) (score_request repr question))] = []).
Proof.
  split.
  - repeat split; try reflexivity. discriminate.
  - apply (clear_question_kept (scripted [clear_answer]) similar similar repr
             record_2_plus_2 question w0 (scored clear_answer) 10 "Clear.").
    + reflexivity.
    + reflexivity.
    + reflexivity.
    + discriminate.
Defined.


(** C4, witness: from the fifth attempt to the sixth. *)
Lemma temperature_escalates_witness :
  (0 <= 4 /\ 4 + 1 < Z.of_nat MAX_ATTEMPTS)
  /\
  exists a a' t t',
    F64.of_int 4 = Some a /\
    F64.of_int (4 + 1) = Some a' /\
    t = F64.add F64.lit_0_2 (F64.mul a F64.lit_0_1) /\
    t' = F64.add F64.lit_0_2 (F64.mul a' F64.lit_0_1) /\
    (forall w, exists response,
        rephrase (scripted []) repr question 85 "Ambiguous pronoun." 4 w
        = Ok (Str.strip response)
             (after w [EvChat (rephrase_request repr question "Ambiguous pronoun." 4 t)
                         response])) /\
    (forall w, exists response,
        rephrase (scripted []) repr question 85 "Ambiguous pronoun." (4 + 1) w
        = Ok (Str.strip response)
             (after w [EvChat (rephrase_request repr question "Ambiguous pronoun." (4 + 1) t')
                         response])) /\
    F64.ltb t t' = true.
Proof.
  split; [ split; [ discriminate | reflexivity ] | ].
  apply (temperature_escalates (scripted []) repr question 85 "Ambiguous pronoun." 4).
  - discriminate.
  - reflexivity.
Defined.




(** C8, witness: an answer with no score in it. *)
Lemma malformed_score_degrades_witness :
  (scripted ["I cannot rate this."] (log w0) (score_request repr question)
   = "I cannot rate this." /\
   (Re.search score_re "I cannot rate this." = None \/
    Re.search justification_re "I cannot rate this." = None))
  /\
  (score_question (scripted ["I cannot rate this."]) repr question w0
   = Ok (0, "Could not parse score.")
        (after w0 [EvChat (score_request repr question) "I cannot rate this."])
   /\ (dict_get "question" record_2_plus_2 (PStr "") = question ->
       truthy question = true ->
       run_body (scripted ["I cannot rate this."]) similar similar repr
         (PDict record_2_plus_2) w0
       = Ok (Some (mkResult (dict_get "id" record_2_plus_2 (PStr "?")) question 0
                     "Could not parse score." question "Original Kept"))
            (after w0 [EvChat (score_request repr question) "I cannot rate this."]))).
Proof.
  split; [ split; [ reflexivity | left; reflexivity ] | ].
  apply (malformed_score_degrades (scripted ["I cannot rate this."]) similar similar repr
           question record_2_plus_2 w0 "I cannot rate this.").
  - reflexivity.
  - left. reflexivity.
Defined.

Lemma four_records_well_formed : Forall question_record four_records.
Proof.
  repeat constructor.
  - exists record_without_id. split; [ reflexivity | right; eexists; reflexivity ].
  - eexists. split; [ reflexivity | right; eexists; reflexivity ].
  - eexists. split; [ reflexivity | left; reflexivity ].
  - eexists. split; [ reflexivity | right; eexists; reflexivity ].
Qed.

(** C9, witness: four records, two of them without a text. *)
Lemma run_loop_one_result_per_question_witness :
  Forall question_record four_records
  /\
  exists results w',
    run_loop (scripted [clear_answer; clear_answer]) similar similar repr
      four_records [] w0 = Ok results w' /\
    Forall2 result_of (filter keeps_text four_records) results.
Proof.
  split; [ exact four_records_well_formed | ].
  apply (run_loop_one_result_per_question (scripted [clear_answer; clear_answer])
           similar similar repr four_records w0).
  exact four_records_well_formed.
Defined.

(** C9, counterexample: the extraction model answers with an array that
    holds a question record and a bare string.  The extractor returns the
    array as it is, and the loop raises on the string: the run returns no
    result at all, not even for the record before it. *)
Lemma stray_element_aborts_run :
  (exists w',
      get_questions (scripted [two_questions_json]) json_loads
        "Answer every question.  1. What is 2+2?  2. What is 3+3?" w0
      = Ok two_questions w')
  /\ keeps_text (PDict record_2_plus_2) = true
  /\ In (PDict record_2_plus_2) two_questions
  /\ (exists w',
         run_loop (scripted [clear_answer]) similar similar repr two_questions [] w0
         = Raise AttributeError w')
  /\ (exists w',
         run (scripted [two_questions_json; clear_answer]) similar similar json_loads
           fitz_open repr [] w0
         = Raise AttributeError w').
Proof.
  split; [ eexists; vm_compute; reflexivity | ].
  split; [ reflexivity | ].
  split; [ left; reflexivity | ].
  split; eexists; vm_compute; reflexivity.
Qed.

(** C10, witness: a record without an id. *)
Lemma result_id_field_witness :
  (dict_lookup "question" record_without_id = Some question /\ "What is 2+2?" <> "")
  /\
  exists r w',
    run_body (scripted [clear_answer]) similar similar repr (PDict record_without_id) w0
    = Ok (Some r) w' /\
    ID r = PStr "?".
Proof.
  split; [ split; [ reflexivity | discriminate ] | ].
  destruct (proj2 (result_id_field (scripted [clear_answer]) similar similar repr
                     record_without_id w0)
              "What is 2+2?" eq_refl)
    as (r & w' & E & I).
  - discriminate.
  - exists r, w'. split; [ exact E | exact I ].
Defined.

(** *** The four end-to-end scenarios *)

(** Empty document text: no result. *)
Example scenario_empty_text :
  exists w',
    run (scripted []) similar similar json_loads (fun _ => Some []) repr no_bytes w0
    = Ok [] w' /\ chats (log w') = [].
Proof. eexists. split; reflexivity. Qed.

(** A question scored 85 whose sixth candidate passes the gate. *)
Example scenario_sixth_attempt_passes :
  exists w',
    run_body
      (scripted [confusing_answer; "2+2?"; "Two and two?"; "Sum?"; "Add 2, 2";
                 "2 plus 2"; " How much is two plus two? "])
      close_to_good similar repr (PDict record_2_plus_2) w0
    = Ok (Some (mkResult (PInt 1) question 85 "Ambiguous pronoun."
                  (PStr "How much is two plus two?") "Rephrased")) w'
    /\ rejections (log w') = [1; 2; 3; 4; 5]
    /\ List.length (candidates (log w')) = 6%nat.
Proof. eexists. split; [ vm_compute; reflexivity | split; reflexivity ]. Qed.

(** A question scored 85 whose six candidates all fail the gate. *)
Example scenario_all_attempts_fail :
  exists w',
    run_body
      (scripted [confusing_answer; "2+2?"; "Two and two?"; "Sum?"; "Add 2, 2";
                 "2 plus 2"; "what is 2+2? "])
      close_to_good similar repr (PDict record_2_plus_2) w0
    = Ok (Some (mkResult (PInt 1) question 85 "Ambiguous pronoun."
                  question "Manual Review Required")) w'
    /\ rejections (log w') = [1; 2; 3; 4; 5; 6]
    /\ List.length (candidates (log w')) = 6%nat
    /\ List.length (cos_sim_calls (log w')) = 5%nat.
Proof. eexists. split; [ vm_compute; reflexivity | repeat split; reflexivity ]. Qed.

(** A question record whose text is a number is scored; when the score
    calls for a rephrasing, the gate raises on the number. *)
Example scenario_text_not_a_string :
  exists w',
    run_body (scripted [confusing_answer; "Seven?"]) similar similar repr
      (PDict [("id", PInt 1); ("question", PInt 7)]) w0
    = Raise AttributeError w'.
Proof. eexists. vm_compute. reflexivity. Qed.

End Scenario.

(** ** The further properties on concrete inputs *)

Module Further.

Import Sample.

(** X2, witness: the same page with another pixmap. *)
Lemma digital_pages_skip_ocr_witness :
  (fitz_open no_bytes = Some [one_page] /\
   fitz_open_rescanned no_bytes = Some [one_page_rescanned] /\
   Forall2 (fun p p' => get_text p = get_text p' /\
                        (50 <= String.length (Str.strip (get_text p)))%nat)
     [one_page] [one_page_rescanned])
  /\ extract_text fitz_open no_bytes w0 = extract_text fitz_open_rescanned no_bytes w0.
Proof.
  assert (F : Forall2 (fun p p' => get_text p = get_text p' /\
                                   (50 <= String.length (Str.strip (get_text p)))%nat)
                [one_page] [one_page_rescanned]).
  { constructor; [ | constructor ]. split; [ reflexivity | ].
    vm_compute. lia. }
  split; [ repeat split; try reflexivity; exact F | ].
  apply (digital_pages_skip_ocr fitz_open fitz_open_rescanned no_bytes
           [one_page] [one_page_rescanned] w0 eq_refl eq_refl F).
Defined.

Lemma huge_scans_unreadable :
  Forall (fun p => (String.length (Str.strip (get_text p)) < 50)%nat /\
                   12000000 < pix_width p * pix_height p) [huge_scan; huge_scan].
Proof.
  constructor; [ split; [ vm_compute; lia | reflexivity ] | ].
  constructor; [ split; [ vm_compute; lia | reflexivity ] | constructor ].
Qed.

(** X3, witness: two pages scanned at 5000 by 4000 pixels. *)
Lemma oversized_scans_yield_nothing_witness :
  (Z.of_nat (List.length no_bytes) <= MAX_PDF_SIZE /\
   fitz_open_scans no_bytes = Some [huge_scan; huge_scan] /\
   Forall (fun p => (String.length (Str.strip (get_text p)) < 50)%nat /\
                    12000000 < pix_width p * pix_height p) [huge_scan; huge_scan])
  /\
  (extract_text fitz_open_scans no_bytes w0 = Ok "" (after w0 [EvPrint (OutExtracted 0)]) /\
   run (scripted []) similar similar json_loads fitz_open_scans repr no_bytes w0
   = Ok [] (after w0 [EvPrint (OutExtracted 0)])).
Proof.
  split.
  - split; [ discriminate | ]. split; [ reflexivity | exact huge_scans_unreadable ].
  - apply (oversized_scans_yield_nothing (scripted []) similar similar json_loads
             fitz_open_scans repr no_bytes [huge_scan; huge_scan] w0).
    + discriminate.
    + reflexivity.
    + exact huge_scans_unreadable.
Defined.

(** X4, witness: a PDF that cannot be opened. *)
Lemma run_without_text_witness :
  unreadable no_bytes = None
  /\ exists l,
       run (scripted []) similar similar json_loads unreadable repr no_bytes w0
       = Ok [] (after w0 [EvPrint l]).
Proof.
  split; [ reflexivity | ].
  apply (run_without_text (scripted []) similar similar json_loads unreadable repr
           no_bytes w0).
  right. left. reflexivity.
Defined.

(** X5, witness: the original in capitals between two spaces. *)
Lemma validate_rejects_recased_padded_witness :
  (Str.lower "WHAT IS 2+2?" = Str.lower "What is 2+2?" /\
   all_space " " = true /\ all_space Str.nl = true)
  /\ validate similar similar (PStr "What is 2+2?")
       (PStr (" " ++ "WHAT IS 2+2?" ++ Str.nl)) w0
     = Ok false (mkWorld true true (log w0 ++ loads w0)).
Proof.
  split; [ repeat split; reflexivity | ].
  apply (validate_rejects_recased_padded similar similar
           "What is 2+2?" "WHAT IS 2+2?" " " Str.nl w0); reflexivity.
Defined.

(** X7, witness: an array announced and followed by a sentence. *)
Lemma safe_json_load_ignores_prose_witness :
  (opens_nothing "Here are the questions: " = true /\
   Str.all_chars (fun c => negb (Ascii.eqb c "]")) " I hope this helps." = true /\
   no_backtick ("Here are the questions: " ++ String "[" ("1, 2" ++ String "]" " I hope this helps."))
   = true)
  /\ _safe_json_load json_loads
       ("Here are the questions: " ++ String "[" ("1, 2" ++ String "]" " I hope this helps."))
     = json_loads (String "[" ("1, 2" ++ String "]" "")).
Proof.
  split; [ repeat split; reflexivity | ].
  apply (safe_json_load_ignores_prose json_loads "[" "]"
           "Here are the questions: " "1, 2" " I hope this helps.").
  - right. split; reflexivity.
  - reflexivity.
  - reflexivity.
  - reflexivity.
Defined.

(** X8, witness: the object of [string_map_json] in a code fence. *)
Lemma safe_json_load_fenced_witness :
  no_backtick (Str.dq ++ "Q1" ++ Str.dq ++ ": " ++ Str.dq ++ "Define entropy." ++ Str.dq)
  = true
  /\ _safe_json_load json_loads (fenced string_map_json)
     = Some (PDict [("Q1", PStr "Define entropy.")]).
Proof.
  split; [ reflexivity | ].
  change (fenced string_map_json)
    with (fenced (String "{"
                    ((Str.dq ++ "Q1" ++ Str.dq ++ ": " ++ Str.dq ++ "Define entropy."
                        ++ Str.dq) ++ String "}" ""))).
  rewrite (safe_json_load_fenced json_loads "{" "}"
             (Str.dq ++ "Q1" ++ Str.dq ++ ": " ++ Str.dq ++ "Define entropy." ++ Str.dq)
             (or_introl (conj eq_refl eq_refl)) eq_refl).
  reflexivity.
Defined.


Lemma sixth_passes_run :
  exists w',
    run_body (scripted sixth_passes) close_to_good similar repr (PDict record_2_plus_2) w0
    = Ok (Some (mkResult (PInt 1) question 85 "Ambiguous pronoun."
                  (PStr "How much is two plus two?") "Rephrased")) w'.
Proof. eexists. vm_compute. reflexivity. Defined.

(** X11, witness: the sixth candidate passes the gate. *)
Lemma rephrased_record_witness :
  20 < 85 /\
  exists o c,
    PStr "What is 2+2?" = PStr o /\ PStr "How much is two plus two?" = PStr c /\
    Str.strip c = c /\
    accepts close_to_good similar o c = true /\
    Str.lower c <> Str.lower (Str.strip o).
Proof.
  destruct sixth_passes_run as [w' E].
  apply (rephrased_record (scripted sixth_passes) close_to_good similar repr
           (PDict record_2_plus_2) w0 w' _ E eq_refl).
Defined.

(** X12, witness: the same record. *)
Lemma status_by_score_witness :
  truthy question = true /\
  ((85 <= 20 /\ "Rephrased" = "Original Kept" /\
    PStr "How much is two plus two?" = question)
   \/ (20 < 85 /\ "Rephrased" = "Rephrased")
   \/ (20 < 85 /\ "Rephrased" = "Manual Review Required" /\
       PStr "How much is two plus two?" = question)).
Proof.
  destruct sixth_passes_run as [w' E].
  apply (status_by_score (scripted sixth_passes) close_to_good similar repr
           (PDict record_2_plus_2) w0 w' _ E).
Defined.

(** X14, witness: a question whose text is the number 7, scored 85. *)
Lemma non_string_text_raises_witness :
  (dict_get "question" record_with_number (PStr "") = PInt 7 /\
   truthy (PInt 7) = true /\ is_str (PInt 7) = false /\
   parse_assessment (scripted [confusing_answer; "Seven?"] (log w0)
                       (score_request repr (PInt 7)))
   = (85, "Ambiguous pronoun.") /\
   20 < 85)
  /\
  exists w' evs,
    run_body (scripted [confusing_answer; "Seven?"]) similar similar repr
      (PDict record_with_number) w0 = Raise AttributeError w' /\
    log w' = (log w0 ++ evs)%list /\
    chats evs = [score_request repr (PInt 7);
                 rephrase_request repr (PInt 7) "Ambiguous pronoun." 0 F64.lit_0_2] /\
    load_events evs = loads w0 /\
    cos_sim_calls evs = [] /\ predict_calls evs = [].
Proof.
  split; [ repeat split; reflexivity | ].
  apply (non_string_text_raises (scripted [confusing_answer; "Seven?"]) similar similar
           repr record_with_number (PInt 7) w0 85 "Ambiguous pronoun.");
    reflexivity.
Defined.

Lemma record_2_plus_2_well_formed : Forall question_record [PDict record_2_plus_2].
Proof.
  repeat constructor. exists record_2_plus_2.
  split; [ reflexivity | right; eexists; reflexivity ].
Qed.

(** X15, witness: a record followed by a bare string. *)
Lemma stray_element_raises_witness :
  (Forall question_record [PDict record_2_plus_2] /\
   forall d, PStr "What is 3+3?" <> PDict d)
  /\ exists w',
       run_loop (scripted [clear_answer]) similar similar repr
         ([PDict record_2_plus_2] ++ PStr "What is 3+3?" :: []) [] w0
       = Raise AttributeError w'.
Proof.
  split; [ split; [ exact record_2_plus_2_well_formed | discriminate ] | ].
  apply (stray_element_raises (scripted [clear_answer]) similar similar repr
           [PDict record_2_plus_2] (PStr "What is 3+3?") []
           record_2_plus_2_well_formed).
  discriminate.
Defined.

Lemma entropy_record_well_formed : Forall question_record entropy_record.
Proof.
  repeat constructor. eexists. split; [ reflexivity | right; eexists; reflexivity ].
Qed.

(** X18, witness: a one-page document and a response that maps an id to a
    question. *)
Lemma run_on_question_records_witness :
  (Z.of_nat (List.length no_bytes) <= MAX_PDF_SIZE /\
   fitz_open no_bytes = Some [one_page] /\
   Str.strip (pages_text [one_page] "") <> "" /\
   (exists w1,
       get_questions (scripted [string_map_json; clear_answer]) json_loads
         (Str.strip (pages_text [one_page] ""))
         (after w0 [EvPrint (OutExtracted
                               (String.length (Str.strip (pages_text [one_page] ""))))])
       = Ok entropy_record w1) /\
   Forall question_record entropy_record)
  /\
  exists results w',
    run (scripted [string_map_json; clear_answer]) similar similar json_loads fitz_open
      repr no_bytes w0 = Ok results w' /\
    Forall2 result_of (filter keeps_text entropy_record) results.
Proof.
  assert (G : exists w1,
             get_questions (scripted [string_map_json; clear_answer]) json_loads
               (Str.strip (pages_text [one_page] ""))
               (after w0 [EvPrint (OutExtracted
                                     (String.length (Str.strip (pages_text [one_page] ""))))])
             = Ok entropy_record w1)
    by (eexists; vm_compute; reflexivity).
  assert (N : Str.strip (pages_text [one_page] "") <> "")
    by (vm_compute; discriminate).
  split.
  - split; [ discriminate | ]. split; [ reflexivity | ]. split; [ exact N | ].
    split; [ exact G | exact entropy_record_well_formed ].
  - destruct G as [w1 G].
    apply (run_on_question_records (scripted [string_map_json; clear_answer]) similar
             similar json_loads fitz_open repr no_bytes [one_page] entropy_record w0 w1).
    + discriminate.
    + reflexivity.
    + exact N.
    + exact G.
    + exact entropy_record_well_formed.
Defined.

(** X19, witness: the loop over the record about entropy. *)
Lemma completed_loop_results_witness :
  exists final w' added,
    run_loop (scripted [clear_answer]) similar similar repr entropy_record [] w0
    = Ok final w' /\
    final = ([] ++ added)%list /\
    Forall2 carries (filter has_text entropy_record) added /\
    Forall (fun q => exists d, q = PDict d) entropy_record.
Proof.
  eexists. eexists.
  assert (E : run_loop (scripted [clear_answer]) similar similar repr entropy_record [] w0
              = Ok [mkResult (PStr "Q1") (PStr "Define entropy.") 10 "Clear."
                      (PStr "Define entropy.") "Original Kept"]
                   (after w0 [EvChat (score_request repr (PStr "Define entropy."))
                                clear_answer]))
    by reflexivity.
  destruct (completed_loop_results (scripted [clear_answer]) similar similar repr
              entropy_record [] _ w0 _ E) as (added & A & B & C).
  exists added. split; [ exact E | ]. split; [ exact A | ]. split; [ exact B | exact C ].
Defined.

End Further.
